(** * Contested-metric estimation engine: trend imputation and posterior
      reconciliation

    A shallow embedding of [analysis/imputation.py] (class
    [DataImputationEngine]) and [analysis/bayesian.py] (class
    [BayesianTrueRange]), with the properties the specification states
    about them.

    Conventions of the embedding.
    - A Python [float] is an exact rational ([Q]); the one non-number the
      code tests for, NaN in [values], is [None] of [option Q].  Rounding
      error, infinities and overflow are outside the model.
    - A Python [int] is a [Z].
    - NumPy and SciPy are not part of the program.  What is rational and
      documented ([np.mean], [np.var], [np.median], [np.percentile],
      boolean-mask indexing, [int], [max], [min]) is written out; what is
      transcendental or iterative ([np.exp], the square root inside
      [np.std], [norm.ppf], [linregress], [curve_fit]) is a field of the
      record [NumLib], so every theorem quantified over [NumLib] holds
      whatever those routines compute.
    - A call either returns or raises: [pyresult].  The module-level NumPy
      random generator is threaded explicitly as a [RandomState]. *)

From Stdlib Require Import QArith Qround Qminmax Lqa Lia ZArith Sorted.
From stdpp Require Import base option list gmap strings.

Local Open Scope Q_scope.

(** ** Exceptions and results *)

Inductive pyexn : Type :=
| RuntimeError
| ValueError
| TypeError
| IndexError
| RecursionError.

Global Instance pyexn_eq_dec : EqDecision pyexn.
Proof. solve_decision. Defined.

Inductive pyresult (A : Type) : Type :=
| Ret (a : A)
| Raise (e : pyexn).

Arguments Ret {A} a.
Arguments Raise {A} e.

Global Instance pyresult_ret : MRet pyresult := fun A a => Ret a.

Global Instance pyresult_bind : MBind pyresult := fun A B k m =>
  match m with
  | Ret a => k a
  | Raise e => Raise e
  end.

Global Instance pyresult_fmap : FMap pyresult := fun A B f m =>
  match m with
  | Ret a => Ret (f a)
  | Raise e => Raise e
  end.

(** [try: body except (classes): handler]. *)
Definition try_except {A} (body : pyresult A) (classes : list pyexn)
    (handler : pyresult A) : pyresult A :=
  match body with
  | Ret a => Ret a
  | Raise e => if bool_decide (e ∈ classes) then handler else Raise e
  end.

Definition returns {A} (r : pyresult A) : Prop := ∃ a, r = Ret a.

(** ** Rational helpers standing for NumPy and builtin arithmetic *)

Definition Qsum (xs : list Q) : Q := foldr Qplus 0 xs.

(** [len(xs)] as a float. *)
Definition Qlen {A} (xs : list A) : Q := inject_Z (Z.of_nat (length xs)).

(** [np.mean]. *)
Definition np_mean (xs : list Q) : Q := Qsum xs / Qlen xs.

(** [np.var], population variance (ddof = 0). *)
Definition np_var (xs : list Q) : Q :=
  let m := np_mean xs in
  np_mean (map (fun x => (x - m) * (x - m)) xs).

(** Builtin [max] and [min] over a non-empty sequence; the default is
    only reached on an empty one, which the callers exclude. *)
Definition py_max_Q (xs : list Q) : Q :=
  match xs with
  | [] => 0
  | x :: xs' => foldl Qmax x xs'
  end.

Definition py_min_Q (xs : list Q) : Q :=
  match xs with
  | [] => 0
  | x :: xs' => foldl Qmin x xs'
  end.

(** Builtin [max] over a list of ints; raises [ValueError] on an empty
    list. *)
Definition py_max (xs : list Z) : pyresult Z :=
  match xs with
  | [] => Raise ValueError
  | x :: xs' => Ret (foldl Z.max x xs')
  end.

(** [int(x)] of a float: truncation toward zero. *)
Definition py_int (x : Q) : Z := Z.quot (Qnum x) (Zpos (Qden x)).


(** *** Sorting, as [np.percentile] and [np.median] do internally *)

Fixpoint insert_sorted (x : Q) (xs : list Q) : list Q :=
  match xs with
  | [] => [x]
  | y :: ys => if Qle_bool x y then x :: y :: ys else y :: insert_sorted x ys
  end.

Definition np_sort (xs : list Q) : list Q := foldr insert_sorted [] xs.

(** [a[i]] on a sorted array, for an index the caller keeps in range. *)
Definition at_index (xs : list Q) (i : Z) : Q := nth (Z.to_nat i) xs 0.

(** [np.percentile(a, q)] with the default linear interpolation: the
    virtual index is [(n - 1) * q / 100], the result interpolates between
    the two neighbouring order statistics.  An empty array has no order
    statistics; NumPy signals that with an index error. *)
Definition np_percentile (a : list Q) (q : Q) : pyresult Q :=
  match a with
  | [] => Raise IndexError
  | _ =>
    let s := np_sort a in
    let n := Z.of_nat (length s) in
    let virtual_index := inject_Z (n - 1) * (q / 100) in
    let previous_index := Qfloor virtual_index in
    let next_index := Z.min (previous_index + 1) (n - 1) in
    let gamma := virtual_index - inject_Z previous_index in
    let lo := at_index s previous_index in
    let hi := at_index s next_index in
    Ret (lo + gamma * (hi - lo))
  end.

(** [np.percentile(a, [q1, ..., qk])]. *)
Fixpoint np_percentiles (a : list Q) (qs : list Q) : pyresult (list Q) :=
  match qs with
  | [] => Ret []
  | q :: qs' =>
    p ← np_percentile a q;
    ps ← np_percentiles a qs';
    Ret (p :: ps)
  end.

(** [np.median]. *)
Definition np_median (xs : list Q) : Q :=
  let s := np_sort xs in
  let n := length s in
  if Nat.even n
  then (nth (n / 2 - 1) s 0 + nth (n / 2) s 0) / 2
  else nth (n / 2) s 0.

(** *** Boolean-mask indexing *)

(** [xs[mask]] for a boolean array [mask]: NumPy raises [IndexError]
    when the two lengths differ. *)
Fixpoint mask_select {A} (xs : list A) (mask : list bool) : list A :=
  match xs, mask with
  | x :: xs', b :: mask' =>
    if b then x :: mask_select xs' mask' else mask_select xs' mask'
  | _, _ => []
  end.

Definition bool_index {A} (xs : list A) (mask : list bool) : pyresult (list A) :=
  if bool_decide (length xs = length mask)
  then Ret (mask_select xs mask)
  else Raise IndexError.

(** ** The numeric routines taken from NumPy and SciPy *)

Record LinregressResult : Type := {
  slope : Q;
  intercept : Q;
  r_value : Q;
  p_value : Q;
  std_err : Q
}.

Record NumLib : Type := {
  np_exp : Q → Q;
  np_sqrt : Q → Q;
  norm_ppf : Q → Q;
  (** [stats.linregress(x, y)] *)
  linregress : list Q → list Q → pyresult LinregressResult;
  (** [curve_fit(f, xdata, ydata, p0, maxfev)], returning [popt] *)
  curve_fit :
    (Q → list Q → Q) → list Q → list Q → list Q → Z → pyresult (list Q)
}.

(** [np.std], population standard deviation. *)
Definition np_std (L : NumLib) (xs : list Q) : Q := np_sqrt L (np_var xs).

(** * Trend imputation engine ([analysis/imputation.py]) *)

(** ** Fitted models

    [fit_trend] returns a dict whose shape depends on ['type']; the
    three shapes are the three constructors.  ['predict'] is a closure
    over the fitted coefficients (and, for the exponential model, over
    the first fitted year), so it is recomputed from them by [predict]. *)

Inductive TrendModel : Type :=
| LinearModel (m_slope m_intercept m_r_squared m_std_err m_residual_std : Q)
| ExponentialModel (m_params : list Q) (m_year0 : Q)
    (m_r_squared m_residual_std : Q)
| LogisticModel (m_params : list Q) (m_r_squared m_residual_std : Q).

(** [model['type']] *)
Definition model_type_of (m : TrendModel) : string :=
  match m with
  | LinearModel _ _ _ _ _ => "linear"
  | ExponentialModel _ _ _ _ => "exponential"
  | LogisticModel _ _ _ => "logistic"
  end.

(** [model['r_squared']] *)
Definition r_squared (m : TrendModel) : Q :=
  match m with
  | LinearModel _ _ r2 _ _ => r2
  | ExponentialModel _ _ r2 _ => r2
  | LogisticModel _ r2 _ => r2
  end.

(** [model['residual_std']] *)
Definition residual_std (m : TrendModel) : Q :=
  match m with
  | LinearModel _ _ _ _ s => s
  | ExponentialModel _ _ _ s => s
  | LogisticModel _ _ s => s
  end.

(** [exp_func(x, a, b, c)], closed over [years[0]].  The optimiser
    returns as many coefficients as the seed has; any other arity is
    outside the model and yields [0]. *)
Definition exp_func (L : NumLib) (year0 : Q) (x : Q) (p : list Q) : Q :=
  match p with
  | [a; b; c] => a * np_exp L (b * (x - year0)) + c
  | _ => 0
  end.

(** [logistic_func(x, L, k, x0, b)]. *)
Definition logistic_func (L : NumLib) (x : Q) (p : list Q) : Q :=
  match p with
  | [l; k; x0; b] => l / (1 + np_exp L (- k * (x - x0))) + b
  | _ => 0
  end.

(** [model['predict'](year)] *)
Definition predict (L : NumLib) (m : TrendModel) (year : Q) : Q :=
  match m with
  | LinearModel s i _ _ _ => s * year + i
  | ExponentialModel popt year0 _ _ => exp_func L year0 year popt
  | LogisticModel popt _ _ => logistic_func L year popt
  end.

(** [values - predict(years)], element-wise. *)
Definition residuals_of (f : Q → Q) (years values : list Q) : list Q :=
  zip_with Qminus values (map f years).

(** [np.isnan(v)] *)
Definition isnan (v : option Q) : bool :=
  match v with
  | None => true
  | Some _ => false
  end.

(** [~np.isnan(values)] *)
Definition not_nan_mask (values : list (option Q)) : list bool :=
  map (fun v => negb (isnan v)) values.

(** The numbers of a float array that holds no NaN. *)
Definition numbers (values : list (option Q)) : list Q := omap id values.

(** The exception classes of the two [except] clauses. *)
Definition caught : list pyexn := [RuntimeError; ValueError].

(** ** [fit_trend]

    The two [except] handlers call [self.fit_trend(years, values,
    'linear')] again; [depth] bounds that recursion.  [fit_trend] runs
    it with depth 2, and [fit_trend_depth_stable] shows that no larger
    depth changes any result. *)
Fixpoint fit_trend_depth (depth : nat) (L : NumLib) (years : list Q)
    (values : list (option Q)) (model_type : string)
    : pyresult (option TrendModel) :=
  match depth with
  | O => Raise RecursionError
  | S depth' =>
    let mask := not_nan_mask values in
    years ← bool_index years mask;
    values ← numbers <$> bool_index values mask;
    if bool_decide (length years < 3)%nat then Ret None
    else if bool_decide (model_type = "linear") then
      lr ← linregress L years values;
      let predict := fun year => slope lr * year + intercept lr in
      Ret (Some (LinearModel (slope lr) (intercept lr)
                   (r_value lr * r_value lr) (std_err lr)
                   (np_std L (residuals_of predict years values))))
    else if bool_decide (model_type = "exponential") then
      try_except
        (let year0 := hd 0 years in
         popt ← curve_fit L (exp_func L year0) years values
                  [hd 0 values; 0.05; 0] 5000;
         let predict := fun year => exp_func L year0 year popt in
         let residuals := residuals_of predict years values in
         Ret (Some (ExponentialModel popt year0
                      (1 - np_var residuals / np_var values)
                      (np_std L residuals))))
        caught
        (fit_trend_depth depth' L years (Some <$> values) "linear")
    else if bool_decide (model_type = "logistic") then
      try_except
        (let p0 := [py_max_Q values * 1.5; 0.1; np_median years;
                    py_min_Q values] in
         popt ← curve_fit L (logistic_func L) years values p0 5000;
         let predict := fun year => logistic_func L year popt in
         let residuals := residuals_of predict years values in
         Ret (Some (LogisticModel popt
                      (1 - np_var residuals / np_var values)
                      (np_std L residuals))))
        caught
        (fit_trend_depth depth' L years (Some <$> values) "linear")
    else Ret None
  end.

Definition fit_trend : NumLib → list Q → list (option Q) → string →
    pyresult (option TrendModel) :=
  fit_trend_depth 2.

(** ** [impute_missing_years] *)

Record Prediction : Type := {
  year : Z;
  predicted : Q;
  lower : Q;
  upper : Q;
  uncertainty_factor : Q;
  is_imputed : bool
}.

Record Imputation : Type := {
  model : TrendModel;
  predictions : list Prediction;
  confidence_level : Q;
  model_type : string;
  imputation_r_squared : Q
}.

(** [a > b] on floats. *)
Definition Qgt_bool (a b : Q) : bool :=
  match Qcompare a b with
  | Gt => true
  | _ => false
  end.

(** A [for] loop whose body may raise. *)
Fixpoint for_each {A S} (body : S → A → pyresult S) (s : S) (xs : list A)
    : pyresult S :=
  match xs with
  | [] => Ret s
  | x :: xs' => s' ← body s x; for_each body s' xs'
  end.

(** The literal list the [auto] branch iterates over. *)
Definition auto_candidates : list string := ["linear"; "exponential"].

(** One iteration of the [auto] loop; the loop state is
    [(best_model, best_r2)]. *)
Definition auto_step (L : NumLib) (known_years : list Z)
    (known_values : list (option Q)) (best : option TrendModel * Q)
    (mtype : string) : pyresult (option TrendModel * Q) :=
  model ← fit_trend L (inject_Z <$> known_years) known_values mtype;
  match model with
  | Some m =>
    if Qgt_bool (r_squared m) (snd best)
    then Ret (Some m, r_squared m)
    else Ret best
  | None => Ret best
  end.

(** [years_out] and [uncertainty_factor] of one requested year. *)
Definition years_out (max_known year : Z) : Z := Z.max 0 (year - max_known).

Definition uncertainty_factor_of (max_known year : Z) : Q :=
  1 + inject_Z (years_out max_known year) * 0.15.

(** [stats.norm.ppf((1 + confidence_level) / 2)] *)
Definition z_score_of (L : NumLib) (confidence_level : Q) : Q :=
  norm_ppf L ((1 + confidence_level) / 2).

(** The body of the loop over [missing_years]. *)
Definition predict_year (L : NumLib) (model : TrendModel)
    (known_years : list Z) (z_score : Q) (year : Z) : pyresult Prediction :=
  let predicted := predict L model (inject_Z year) in
  let margin := z_score * residual_std model in
  max_known ← py_max known_years;
  let uncertainty_factor := uncertainty_factor_of max_known year in
  let margin := margin * uncertainty_factor in
  Ret {| year := year;
         predicted := predicted;
         lower := predicted - margin;
         upper := predicted + margin;
         uncertainty_factor := uncertainty_factor;
         is_imputed := true |}.

Definition impute_missing_years (L : NumLib) (known_years : list Z)
    (known_values : list (option Q)) (missing_years : list Z)
    (model_type : string) (confidence_level : Q)
    : pyresult (option Imputation) :=
  model ←
    (if bool_decide (model_type = "auto") then
       fst <$> for_each (auto_step L known_years known_values)
                 (None, -1) auto_candidates
     else fit_trend L (inject_Z <$> known_years) known_values model_type);
  match model with
  | None => Ret None
  | Some model =>
    let z_score := z_score_of L confidence_level in
    predictions ←
      for_each (fun acc year =>
                  p ← predict_year L model known_years z_score year;
                  Ret (acc ++ [p]))
        [] missing_years;
    Ret (Some {| model := model;
                 predictions := predictions;
                 confidence_level := confidence_level;
                 model_type := model_type_of model;
                 imputation_r_squared := r_squared model |})
  end.

(** * Posterior reconciliation engine ([analysis/bayesian.py]) *)

Record Estimate : Type := {
  mean : Q;
  std : Q
}.

Record ContestedMetric : Type := {
  official : Estimate;
  independent : Estimate;
  prior_bias : string
}.

(** The engine object: [self.contested_metrics]. *)
Record BayesianTrueRange : Type := {
  contested_metrics : gmap string ContestedMetric
}.

(** [BayesianTrueRange()] *)
Definition new_engine : BayesianTrueRange := {| contested_metrics := ∅ |}.

Definition add_contested_metric (self : BayesianTrueRange)
    (metric_name : string) (official_value official_std : Q)
    (independent_value independent_std : Q) (prior_bias : string)
    : BayesianTrueRange :=
  {| contested_metrics :=
       <[metric_name :=
           {| official := {| mean := official_value; std := official_std |};
              independent :=
                {| mean := independent_value; std := independent_std |};
              prior_bias := prior_bias |}]>
         (contested_metrics self) |}.

Record Posterior : Type := {
  samples : list Q;
  posterior_mean : Q;
  median : Q;
  posterior_std : Q;
  ci_90 : Q * Q;
  ci_50 : Q * Q;
  posterior_official : Estimate;
  posterior_independent : Estimate;
  weights : Q * Q
}.

(** ** The random generator

    [np.random] is one global generator.  Its future output is two
    streams, standard normal deviates and raw integers, and a cursor
    counting the draws made so far. *)
Record RandomState : Type := {
  deviates : nat → Q;
  integers : nat → nat;
  cursor : nat
}.

Definition advance (rs : RandomState) (k : nat) : RandomState :=
  {| deviates := deviates rs; integers := integers rs;
     cursor := (cursor rs + k)%nat |}.

(** A computation that may raise and that uses the generator. *)
Definition rand (A : Type) : Type := RandomState → pyresult A * RandomState.

Global Instance rand_ret : MRet rand := fun A a rs => (Ret a, rs).

Global Instance rand_bind : MBind rand := fun A B k m rs =>
  match m rs with
  | (Ret a, rs') => k a rs'
  | (Raise e, rs') => (Raise e, rs')
  end.

Definition lift {A} (r : pyresult A) : rand A := fun rs => (r, rs).

(** [np.random.normal(loc, scale, size)]: [size] draws [loc + scale * z];
    NumPy raises [ValueError] for a negative scale or a negative size. *)
Definition np_random_normal (loc scale : Q) (size : Z) : rand (list Q) :=
  fun rs =>
    if Qgt_bool 0 scale then (Raise ValueError, rs)
    else if bool_decide (size < 0)%Z then (Raise ValueError, rs)
    else
      let n := Z.to_nat size in
      (Ret ((fun i => loc + scale * deviates rs (cursor rs + i)%nat) <$> seq 0 n),
       advance rs n).

(** [x[i], x[j] = x[j], x[i]] *)
Definition swap (xs : list Q) (i j : nat) : list Q :=
  match xs !! i, xs !! j with
  | Some a, Some b => <[i := b]> (<[j := a]> xs)
  | _, _ => xs
  end.

(** [np.random.shuffle], in place: for [i] from [n - 1] down to [1],
    exchange [x[i]] with [x[j]] for a fresh [j] in [0..i]. *)
Fixpoint shuffle_from (i : nat) (xs : list Q) (rs : RandomState)
    : list Q * RandomState :=
  match i with
  | O => (xs, rs)
  | S i' =>
    let j := (integers rs (cursor rs) mod (S i'))%nat in
    shuffle_from i' (swap xs (S i') j) (advance rs 1)
  end.

Definition np_random_shuffle (xs : list Q) : rand (list Q) :=
  fun rs =>
    let '(ys, rs') := shuffle_from (length xs - 1) xs rs in
    (Ret ys, rs').

(** ** [compute_posterior] *)

(** The mixture weights of a bias label: lines 71-76. *)
Definition mixture_weights (bias : string) : Q * Q :=
  if bool_decide (bias = "skeptical") then (0.3, 0.7)
  else if bool_decide (bias = "official") then (0.7, 0.3)
  else (0.5, 0.5).

(** [n_official] and [n_independent]: lines 79-80. *)
Definition partition_sizes (n_samples : Z) (w_official : Q) : Z * Z :=
  let n_official := py_int (inject_Z n_samples * w_official) in
  let n_independent := (n_samples - n_official)%Z in
  (n_official, n_independent).

Definition compute_posterior (L : NumLib) (self : BayesianTrueRange)
    (metric_name : string) (n_samples : Z) : rand (option Posterior) :=
  match contested_metrics self !! metric_name with
  | None => mret None
  | Some metric =>
    let official := official metric in
    let independent := independent metric in
    let bias := prior_bias metric in
    let '(w_official, w_independent) := mixture_weights bias in
    let '(n_official, n_independent) := partition_sizes n_samples w_official in
    official_samples ←
      np_random_normal (mean official) (std official) n_official;
    independent_samples ←
      np_random_normal (mean independent) (std independent) n_independent;
    posterior_samples ←
      np_random_shuffle (official_samples ++ independent_samples);
    percentiles ← lift (np_percentiles posterior_samples [5; 25; 50; 75; 95]);
    match percentiles with
    | [p5; p25; p50; p75; p95] =>
      mret (Some {| samples := posterior_samples;
                    posterior_mean := np_mean posterior_samples;
                    median := p50;
                    posterior_std := np_std L posterior_samples;
                    ci_90 := (p5, p95);
                    ci_50 := (p25, p75);
                    posterior_official := official;
                    posterior_independent := independent;
                    weights := (w_official, w_independent) |})
    | _ => lift (Raise IndexError)
    end
  end.

(** * Executable stand-ins for the numeric routines

    Concrete instances of [NumLib] and [RandomState] on which the model
    runs.  They apply the argument checks SciPy makes before it computes
    anything; the numbers they return are coarse rational approximations
    and no theorem depends on their accuracy. *)

Module Reference.

(** Square root to six decimals. *)
Definition sqrt (x : Q) : Q :=
  if Qle_bool x 0 then 0
  else inject_Z (Z.sqrt (Qnum x * 10 ^ 12 / Zpos (Qden x))) / inject_Z (10 ^ 6).

(** A cubic Taylor polynomial for the exponential. *)
Definition exp (x : Q) : Q := 1 + x + x * x / 2 + x * x * x / 6.

(** Normal quantiles of the usual confidence levels. *)
Definition ppf (p : Q) : Q :=
  if Qeq_bool p 0.975 then 1.959964
  else if Qeq_bool p 0.95 then 1.644854
  else if Qeq_bool p 0.995 then 2.575829
  else 0.

Definition covariance (xs ys : list Q) : Q :=
  let xm := np_mean xs in
  let ym := np_mean ys in
  np_mean (zip_with (fun x y => (x - xm) * (y - ym)) xs ys).

(** Ordinary least squares.  SciPy rejects empty input and input whose
    [x] values are all identical with [ValueError]. *)
Definition ols (xs ys : list Q) : pyresult LinregressResult :=
  if bool_decide (xs = [] ∨ ys = []) then Raise ValueError
  else if Qeq_bool (py_max_Q xs) (py_min_Q xs) && bool_decide (1 < length xs)%nat
  then Raise ValueError
  else
    let ssxm := covariance xs xs in
    let ssxym := covariance xs ys in
    let ssym := covariance ys ys in
    let r := if Qeq_bool ssxm 0 || Qeq_bool ssym 0 then 0
             else Qmax (-1) (Qmin 1 (ssxym / sqrt (ssxm * ssym))) in
    let slope := ssxym / ssxm in
    let df := Qlen xs - 2 in
    Ret {| slope := slope;
           intercept := np_mean ys - slope * np_mean xs;
           r_value := r;
           p_value := 0;
           std_err := sqrt ((1 - r * r) * ssym / ssxm / df) |}.

(** The iteration behind [curve_fit]. *)
Inductive solver : Type :=
| SeedIsOptimal   (**r converges at once, on the seed [p0] *)
| BudgetExhausted (**r never converges within [maxfev] *).

(** [curve_fit] with the default method: SciPy first checks that the
    data points are at least as many as the coefficients (a lone data
    point is exempt) and raises [TypeError] otherwise; a failed
    iteration raises [RuntimeError]. *)
Definition fit (s : solver) (f : Q → list Q → Q) (xdata ydata p0 : list Q)
    (maxfev : Z) : pyresult (list Q) :=
  if bool_decide (length ydata ≠ 1%nat) && bool_decide (length ydata < length p0)%nat
  then Raise TypeError
  else match s with
       | SeedIsOptimal => Ret p0
       | BudgetExhausted => Raise RuntimeError
       end.

Definition lib (s : solver) : NumLib :=
  {| np_exp := exp; np_sqrt := sqrt; norm_ppf := ppf;
     linregress := ols; curve_fit := fit s |}.

(** A fixed generator state. *)
Definition random_state : RandomState :=
  {| deviates := fun i => inject_Z (Z.of_nat (i * 7 mod 11) - 5) / 4;
     integers := fun i => (i * 13 + 5)%nat;
     cursor := 0 |}.

(** The engine [get_contested_metrics_analysis] builds. *)
Definition catalog : BayesianTrueRange :=
  let e := new_engine in
  let e := add_contested_metric e "Daily Detention Population"
             35000 2000 52000 5000 "skeptical" in
  let e := add_contested_metric e "Annual Removals"
             185000 10000 265000 25000 "skeptical" in
  let e := add_contested_metric e "Deaths in/after Custody (Annual)"
             22 3 45 12 "skeptical" in
  let e := add_contested_metric e "Sexual Assault Incidents (Annual)"
             120 20 850 150 "skeptical" in
  let e := add_contested_metric e "Individuals in Solitary Confinement"
             2500 300 8000 1500 "skeptical" in
  add_contested_metric e "Family Separations (2017-2021)"
    3900 200 5500 400 "skeptical".

(** Three reported years. *)
Definition years3 : list Q := [2019; 2020; 2021].
Definition values3 : list (option Q) := [Some 10; Some 12; Some 15].

(** Four years, one of them unreported. *)
Definition years_gap : list Q := [2018; 2019; 2020; 2021].
Definition values_gap : list (option Q) := [Some 5; None; Some 9; Some 14].

(** The series of end-to-end scenario A. *)
Definition known_years : list Z := [2018; 2019; 2020; 2021]%Z.
Definition known_values : list (option Q) :=
  [Some 12; Some 12; Some 19; Some 21].
Definition missing_years : list Z := [2022; 2023]%Z.

(** Three entries of the catalog. *)
Definition annual_removals : ContestedMetric :=
  {| official := {| mean := 185000; std := 10000 |};
     independent := {| mean := 265000; std := 25000 |};
     prior_bias := "skeptical" |}.

Definition family_separations : ContestedMetric :=
  {| official := {| mean := 3900; std := 200 |};
     independent := {| mean := 5500; std := 400 |};
     prior_bias := "skeptical" |}.

End Reference.


(** * Auxiliary definitions used in the statements *)

(** The value [np.percentile] interpolates at virtual index [h] of a
    sorted array [s]. *)
Definition interpolate (s : list Q) (h : Q) : Q :=
  let n := Z.of_nat (length s) in
  let previous_index := Qfloor h in
  let next_index := Z.min (previous_index + 1) (n - 1) in
  at_index s previous_index
  + (h - inject_Z previous_index)
    * (at_index s next_index - at_index s previous_index).

(** The years and the values [fit_trend] keeps: those at the positions
    whose value is a number (paired removal). *)
Definition valid_years (years : list Q) (values : list (option Q)) : list Q :=
  mask_select years (not_nan_mask values).

Definition valid_values (values : list (option Q)) : list Q :=
  numbers (mask_select values (not_nan_mask values)).

(** The three branches of [fit_trend], on data already cleaned. *)
Definition fit_linear (L : NumLib) (years values : list Q)
    : pyresult (option TrendModel) :=
  lr ← linregress L years values;
  Ret (Some (LinearModel (slope lr) (intercept lr)
               (r_value lr * r_value lr) (std_err lr)
               (np_std L (residuals_of
                            (fun year => slope lr * year + intercept lr)
                            years values)))).

Definition exponential_seed (values : list Q) : list Q :=
  [hd 0 values; 0.05; 0].

Definition logistic_seed (years values : list Q) : list Q :=
  [py_max_Q values * 1.5; 0.1; np_median years; py_min_Q values].

Definition fit_exponential (L : NumLib) (years values : list Q)
    : pyresult (option TrendModel) :=
  popt ← curve_fit L (exp_func L (hd 0 years)) years values
           (exponential_seed values) 5000;
  let residuals :=
    residuals_of (fun year => exp_func L (hd 0 years) year popt)
      years values in
  Ret (Some (ExponentialModel popt (hd 0 years)
               (1 - np_var residuals / np_var values)
               (np_std L residuals))).

Definition fit_logistic (L : NumLib) (years values : list Q)
    : pyresult (option TrendModel) :=
  popt ← curve_fit L (logistic_func L) years values
           (logistic_seed years values) 5000;
  let residuals :=
    residuals_of (fun year => logistic_func L year popt) years values in
  Ret (Some (LogisticModel popt
               (1 - np_var residuals / np_var values)
               (np_std L residuals))).

(** The model kinds [fit_trend] has a branch for. *)
Definition known_kinds : list string := ["linear"; "exponential"; "logistic"].

(** The argument check [curve_fit] makes for its default method before
    it optimises: more coefficients than data points is a [TypeError]
    (a lone data point is exempt). *)
Definition checks_arity (L : NumLib) : Prop :=
  ∀ f xdata ydata p0 maxfev,
    length ydata ≠ 1%nat → (length ydata < length p0)%nat →
    curve_fit L f xdata ydata p0 maxfev = Raise TypeError.


(** The [curve_fit] call of the exponential and of the logistic branch,
    on cleaned data. *)
Definition optimizer_call (L : NumLib) (model_type : string)
    (years values : list Q) : pyresult (list Q) :=
  if bool_decide (model_type = "exponential") then
    curve_fit L (exp_func L (hd 0 years)) years values
      (exponential_seed values) 5000
  else
    curve_fit L (logistic_func L) years values
      (logistic_seed years values) 5000.

(** The model [impute_missing_years] settles on: lines 129-142. *)
Definition select_model (L : NumLib) (known_years : list Z)
    (known_values : list (option Q)) (model_type : string)
    : pyresult (option TrendModel) :=
  if bool_decide (model_type = "auto") then
    fst <$> for_each (auto_step L known_years known_values)
              (None, -1) auto_candidates
  else fit_trend L (inject_Z <$> known_years) known_values model_type.

(** The entry [impute_missing_years] appends for one year, once
    [max(known_years)] is known. *)
Definition prediction_for (L : NumLib) (model : TrendModel) (max_known : Z)
    (z_score : Q) (year : Z) : Prediction :=
  let predicted := predict L model (inject_Z year) in
  let margin :=
    z_score * residual_std model * uncertainty_factor_of max_known year in
  {| year := year;
     predicted := predicted;
     lower := predicted - margin;
     upper := predicted + margin;
     uncertainty_factor := uncertainty_factor_of max_known year;
     is_imputed := true |}.

(** The better of the two candidates of the [auto] loop: the
    exponential fit replaces the linear one only when its [r_squared]
    is strictly higher. *)
Definition better_fit (linear_fit exponential_fit : TrendModel) : TrendModel :=
  if Qgt_bool (r_squared exponential_fit) (r_squared linear_fit)
  then exponential_fit
  else linear_fit.

(** * The two drivers

    [get_obfuscated_metrics] ([analysis/imputation.py]) and
    [get_contested_metrics_analysis] ([analysis/bayesian.py]) feed the
    engines.  The rows [query_data] returns are arguments of the model:
    a row is a year and a value, [None] for SQL NULL. *)

(** Builtin [min] over a list of ints; raises [ValueError] on an empty
    list. *)
Definition py_min (xs : list Z) : pyresult Z :=
  match xs with
  | [] => Raise ValueError
  | x :: xs' => Ret (foldl Z.min x xs')
  end.

(** [list(range(a, b))] *)
Definition py_range (a b : Z) : list Z :=
  (fun i => (a + Z.of_nat i)%Z) <$> seq 0 (Z.to_nat (b - a)).

(** One entry of [imputed_metrics]. *)
Record ObfuscatedMetric : Type := {
  om_metric : string;
  om_known_years : list Z;
  om_known_values : list (option Q);
  om_result : Imputation;
  om_unit : string;
  om_note : string
}.

Definition get_obfuscated_metrics (L : NumLib)
    (deaths_data budget_data : list (Z * option Q))
    : pyresult (list ObfuscatedMetric) :=
  let imputed_metrics : list ObfuscatedMetric := [] in
  imputed_metrics ←
    (if bool_decide (deaths_data ≠ []) then
       let years := fst <$> deaths_data in
       let values := snd <$> deaths_data in
       lo ← py_min years;
       hi ← py_max years;
       let all_years := py_range lo (hi + 2) in
       let missing := filter (fun y => y ∉ years) all_years in
       if bool_decide (missing ≠ []) then
         result ← impute_missing_years L years values missing "auto" 0.95;
         match result with
         | Some result =>
           Ret (imputed_metrics ++
                [{| om_metric := "Deaths in Custody";
                    om_known_years := years;
                    om_known_values := values;
                    om_result := result;
                    om_unit := "deaths";
                    om_note := "ICE has periods of delayed or incomplete death reporting. Independent sources suggest higher actual counts." |}])
         | None => Ret imputed_metrics
         end
       else Ret imputed_metrics
     else Ret imputed_metrics);
  imputed_metrics ←
    (if bool_decide (budget_data ≠ []) then
       let years := fst <$> budget_data in
       let values := snd <$> budget_data in
       lo ← py_min years;
       hi ← py_max years;
       let all_years := py_range lo (hi + 2) in
       let missing := filter (fun y => y ∉ years) all_years in
       if bool_decide (missing ≠ []) then
         result ← impute_missing_years L years values missing "auto" 0.95;
         match result with
         | Some result =>
           Ret (imputed_metrics ++
                [{| om_metric := "ICE Budget";
                    om_known_years := years;
                    om_known_values := values;
                    om_result := result;
                    om_unit := "$M";
                    om_note := "Budget figures may be incomplete for certain years." |}])
         | None => Ret imputed_metrics
         end
       else Ret imputed_metrics
     else Ret imputed_metrics);
  Ret imputed_metrics.

(** [get_metric_unit]: [units.get(metric_name, '')]. *)
Definition get_metric_unit (metric_name : string) : string :=
  let units : gmap string string :=
    list_to_map
      [("Daily Detention Population", "people");
       ("Annual Removals", "removals");
       ("Deaths in/after Custody (Annual)", "deaths");
       ("Sexual Assault Incidents (Annual)", "incidents");
       ("Individuals in Solitary Confinement", "people");
       ("Family Separations (2017-2021)", "children")] in
  default "" (units !! metric_name).

(** [get_metric_description]: [descriptions.get(metric_name, '')]. *)
Definition get_metric_description (metric_name : string) : string :=
  let descriptions : gmap string string :=
    list_to_map
      [("Daily Detention Population",
        "ICE reports daily detention population but excludes those held in temporary facilities, jails pending transfer, and contracted facilities with reporting delays. Independent estimates include FOIA-obtained data and facility-level reporting.");
       ("Annual Removals",
        "Official removal statistics exclude 'voluntary departures' where individuals waive their right to a hearing. Independent estimates include all enforced departures and returns at the border.");
       ("Deaths in/after Custody (Annual)",
        "ICE's official death count only includes deaths while in ICE custody. Independent tracking includes deaths within 30 days of release, where medical conditions developed during detention were contributing factors.");
       ("Sexual Assault Incidents (Annual)",
        "Official DHS statistics reflect only substantiated complaints. Independent estimates from Human Rights Watch and ACLU account for unreported incidents, estimated at 7x the reported rate based on surveys.");
       ("Individuals in Solitary Confinement",
        "ICE reports Administrative Segregation numbers but uses narrow definitions. Independent monitoring found many facilities using de facto solitary conditions classified as 'protective custody' or 'medical isolation.'");
       ("Family Separations (2017-2021)",
        "The official 'Zero Tolerance' count of 3,900 reflects only documented separations during 2018. Independent tracking by researchers found separations occurring before and after the official policy period.")] in
  default "" (descriptions !! metric_name).

(** One entry of [results]. *)
Record MetricAnalysis : Type := {
  ma_name : string;
  ma_posterior : Posterior;
  ma_unit : string;
  ma_description : string
}.

(** A [for] loop whose body may raise and uses the generator. *)
Fixpoint for_each_rand {A S} (body : S → A → rand S) (s : S) (xs : list A)
    : rand S :=
  match xs with
  | [] => mret s
  | x :: xs' => s' ← body s x; for_each_rand body s' xs'
  end.

(** The engine of [get_contested_metrics_analysis] after its six
    [add_contested_metric] calls. *)
Definition analysis_engine : BayesianTrueRange :=
  let engine := new_engine in
  let engine := add_contested_metric engine "Daily Detention Population"
                  35000 2000 52000 5000 "skeptical" in
  let engine := add_contested_metric engine "Annual Removals"
                  185000 10000 265000 25000 "skeptical" in
  let engine := add_contested_metric engine "Deaths in/after Custody (Annual)"
                  22 3 45 12 "skeptical" in
  let engine := add_contested_metric engine "Sexual Assault Incidents (Annual)"
                  120 20 850 150 "skeptical" in
  let engine := add_contested_metric engine "Individuals in Solitary Confinement"
                  2500 300 8000 1500 "skeptical" in
  add_contested_metric engine "Family Separations (2017-2021)"
    3900 200 5500 400 "skeptical".

(** The keys of [engine.contested_metrics] in the order a Python dict
    iterates them: the order of insertion. *)
Definition analysis_names : list string :=
  ["Daily Detention Population"; "Annual Removals";
   "Deaths in/after Custody (Annual)"; "Sexual Assault Incidents (Annual)";
   "Individuals in Solitary Confinement"; "Family Separations (2017-2021)"].

(** The body of the loop over the metrics, for any engine. *)
Definition analyse_metric (L : NumLib) (engine : BayesianTrueRange)
    (results : list MetricAnalysis) (metric_name : string)
    : rand (list MetricAnalysis) :=
  posterior ← compute_posterior L engine metric_name 10000;
  match posterior with
  | Some posterior =>
    mret (results ++
          [{| ma_name := metric_name;
              ma_posterior := posterior;
              ma_unit := get_metric_unit metric_name;
              ma_description := get_metric_description metric_name |}])
  | None => mret results
  end.

Definition get_contested_metrics_analysis (L : NumLib)
    : rand (list MetricAnalysis) :=
  for_each_rand (analyse_metric L analysis_engine) [] analysis_names.

(** The years [get_obfuscated_metrics] asks an imputation for: those of
    [range(min(years), max(years) + 2)] that are not reported. *)
Definition gap_years (years : list Z) : pyresult (list Z) :=
  lo ← py_min years;
  hi ← py_max years;
  Ret (filter (fun y => y ∉ years) (py_range lo (hi + 2))).

(** One of the two blocks of [get_obfuscated_metrics], for a non-empty
    table. *)
Definition series_entry (L : NumLib) (name unit_label note : string)
    (data : list (Z * option Q)) : pyresult (option ObfuscatedMetric) :=
  missing ← gap_years (fst <$> data);
  result ← impute_missing_years L (fst <$> data) (snd <$> data) missing
             "auto" 0.95;
  match result with
  | Some r =>
    Ret (Some {| om_metric := name;
                 om_known_years := fst <$> data;
                 om_known_values := snd <$> data;
                 om_result := r;
                 om_unit := unit_label;
                 om_note := note |})
  | None => Ret None
  end.

(** Further sample inputs. *)
Module Samples.

(** The pairs of [Reference.years_gap] that carry a value. *)
Definition years_kept : list Q := [2018; 2020; 2021].
Definition values_kept : list (option Q) := [Some 5; Some 9; Some 14].

(** A series with two reported values only. *)
Definition years_short : list Z := [2020; 2021; 2022]%Z.
Definition values_short : list (option Q) := [Some 4; None; Some 6].

(** One year more than [Reference.values3] has values. *)
Definition years_long : list Z := [2019; 2020; 2021; 2022]%Z.

(** Reported years with 2020 missing. *)
Definition years_with_gap : list Z := [2018; 2019; 2021; 2022]%Z.

(** Rows of a table: 2020 has no row, 2022 has a row without value. *)
Definition rows : list (Z * option Q) :=
  [(2018%Z, Some 12); (2019%Z, Some 12); (2021%Z, Some 19);
   (2022%Z, None); (2023%Z, Some 25)].


End Samples.

(** The two notes [get_obfuscated_metrics] attaches. *)
Definition deaths_note : string :=
  "ICE has periods of delayed or incomplete death reporting. Independent sources suggest higher actual counts.".

Definition budget_note : string :=
  "Budget figures may be incomplete for certain years.".

(** A block of [get_obfuscated_metrics]: skipped for an empty table. *)
Definition series_block (L : NumLib) (name unit_label note : string)
    (data : list (Z * option Q)) : pyresult (option ObfuscatedMetric) :=
  if bool_decide (data ≠ []) then series_entry L name unit_label note data
  else Ret None.

(** * Properties *)

(** ** Results and handlers *)

Lemma try_except_ret {A} (a : A) classes handler :
  try_except (Ret a) classes handler = Ret a.
Proof. reflexivity. Qed.

Lemma try_except_caught {A} (e : pyexn) classes (handler : pyresult A) :
  e ∈ classes → try_except (Raise e) classes handler = handler.
Proof. intros He. unfold try_except. by rewrite bool_decide_eq_true_2. Qed.

Lemma try_except_uncaught {A} (e : pyexn) classes (handler : pyresult A) :
  e ∉ classes → try_except (Raise e) classes handler = Raise e.
Proof. intros He. unfold try_except. by rewrite bool_decide_eq_false_2. Qed.

(** ** Sorting and percentiles *)

Section Sorting.

Lemma Qle_bool_false (x y : Q) : Qle_bool x y = false → y <= x.
Proof.
  intros H. destruct (Qlt_le_dec x y) as [Hlt|Hle]; [|exact Hle].
  apply Qlt_le_weak in Hlt. apply Qle_bool_iff in Hlt. congruence.
Qed.

Lemma insert_sorted_length x xs :
  length (insert_sorted x xs) = S (length xs).
Proof.
  induction xs as [|y ys IH]; simpl; [done|].
  destruct (Qle_bool x y); simpl; by rewrite ?IH.
Qed.

Lemma np_sort_length xs : length (np_sort xs) = length xs.
Proof.
  induction xs as [|x xs IH]; simpl; [done|].
  by rewrite insert_sorted_length, IH.
Qed.

Lemma insert_sorted_Forall (a x : Q) xs :
  a <= x → Forall (Qle a) xs → Forall (Qle a) (insert_sorted x xs).
Proof.
  intros Hax. induction 1 as [|y ys Hy Hys IH]; simpl.
  - by repeat constructor.
  - destruct (Qle_bool x y); repeat constructor; auto.
Qed.

Lemma insert_sorted_sorted x xs :
  StronglySorted Qle xs → StronglySorted Qle (insert_sorted x xs).
Proof.
  induction 1 as [|y ys Hs IH Hall]; simpl.
  - repeat constructor.
  - destruct (Qle_bool x y) eqn:Hxy.
    + apply Qle_bool_iff in Hxy. constructor.
      * by constructor.
      * constructor; [done|].
        eapply Forall_impl; [exact Hall|].
        intros z Hz. by apply Qle_trans with y.
    + apply Qle_bool_false in Hxy. constructor; [done|].
      by apply insert_sorted_Forall.
Qed.

Lemma np_sort_sorted xs : StronglySorted Qle (np_sort xs).
Proof.
  induction xs as [|x xs IH]; simpl; [constructor|].
  by apply insert_sorted_sorted.
Qed.

(** In a sorted array the order statistics are non-decreasing. *)
Lemma sorted_nth_le s (i j : nat) :
  StronglySorted Qle s → (i <= j)%nat → (j < length s)%nat →
  nth i s 0 <= nth j s 0.
Proof.
  intros Hs. revert i j.
  induction Hs as [|x xs Hs IH Hall]; intros i j Hij Hj; simpl in *; [lia|].
  destruct i as [|i], j as [|j]; simpl; try lia.
  - apply Qle_refl.
  - rewrite Forall_forall in Hall. apply Hall.
    apply list_elem_of_In, nth_In. lia.
  - apply IH; lia.
Qed.

Lemma at_index_le s (i j : Z) :
  StronglySorted Qle s → (0 <= i)%Z → (i <= j)%Z →
  (j < Z.of_nat (length s))%Z →
  at_index s i <= at_index s j.
Proof.
  intros Hs Hi Hij Hj. unfold at_index.
  apply sorted_nth_le; [done|lia|lia].
Qed.

End Sorting.

Section Percentile.

Lemma np_percentile_interpolate a q :
  a ≠ [] →
  np_percentile a q
  = Ret (interpolate (np_sort a)
           (inject_Z (Z.of_nat (length (np_sort a)) - 1) * (q / 100))).
Proof. intros Ha. destruct a; [done|reflexivity]. Qed.

Variable s : list Q.
Hypothesis s_sorted : StronglySorted Qle s.

Let n : Z := Z.of_nat (length s).

Lemma floor_in_range h :
  0 <= h → h <= inject_Z (n - 1) → (0 <= Qfloor h <= n - 1)%Z.
Proof.
  intros H0 Hn. split.
  - rewrite <- (Qfloor_Z 0). by apply Qfloor_resp_le.
  - rewrite <- (Qfloor_Z (n - 1)). by apply Qfloor_resp_le.
Qed.

Lemma interpolate_bounds h :
  0 <= h → h <= inject_Z (n - 1) →
  at_index s (Qfloor h) <= interpolate s h
  ∧ interpolate s h <= at_index s (Z.min (Qfloor h + 1) (n - 1)).
Proof.
  intros H0 Hn.
  destruct (floor_in_range h H0 Hn) as [Hlo Hhi].
  unfold interpolate. fold n.
  set (lo := Qfloor h) in *.
  set (hi := Z.min (lo + 1) (n - 1)).
  assert (Hd : at_index s lo <= at_index s hi).
  { apply at_index_le; [done|lia|lia|]. fold n. lia. }
  assert (Hg0 : 0 <= h - inject_Z lo).
  { pose proof (Qfloor_le h). fold lo in H. lra. }
  assert (Hg1 : h - inject_Z lo <= 1).
  { pose proof (Qlt_floor h) as H. fold lo in H.
    rewrite inject_Z_plus in H. change (inject_Z 1) with 1 in H. lra. }
  split; nra.
Qed.

Lemma interpolate_mono h1 h2 :
  0 <= h1 → h1 <= h2 → h2 <= inject_Z (n - 1) →
  interpolate s h1 <= interpolate s h2.
Proof.
  intros H0 H12 Hn.
  assert (H1n : h1 <= inject_Z (n - 1)) by lra.
  assert (H02 : 0 <= h2) by lra.
  destruct (floor_in_range h1 H0 H1n) as [Hlo1 Hhi1].
  destruct (floor_in_range h2 H02 Hn) as [Hlo2 Hhi2].
  pose proof (Qfloor_resp_le h1 h2 H12) as Hfl.
  destruct (Z.eq_dec (Qfloor h1) (Qfloor h2)) as [Heq|Hne].
  - unfold interpolate. rewrite Heq. fold n.
    set (lo := Qfloor h2) in *.
    set (hi := Z.min (lo + 1) (n - 1)).
    assert (Hd : at_index s lo <= at_index s hi).
    { apply at_index_le; [done|lia|lia|]. fold n. lia. }
    nra.
  - destruct (interpolate_bounds h1 H0 H1n) as [_ Hup].
    destruct (interpolate_bounds h2 H02 Hn) as [Hdown _].
    apply Qle_trans with (at_index s (Z.min (Qfloor h1 + 1) (n - 1)));
      [done|].
    apply Qle_trans with (at_index s (Qfloor h2)); [|done].
    apply at_index_le; [done|lia|lia|]. fold n. lia.
Qed.

End Percentile.

(** Percentiles of one array are ordered like their ranks. *)
Lemma np_percentile_mono a q1 q2 p1 p2 :
  0 <= q1 → q1 <= q2 → q2 <= 100 →
  np_percentile a q1 = Ret p1 → np_percentile a q2 = Ret p2 →
  p1 <= p2.
Proof.
  intros H0 H12 H100 Hp1 Hp2.
  destruct (decide (a = [])) as [->|Ha]; [done|].
  rewrite np_percentile_interpolate in Hp1, Hp2 by done.
  injection Hp1 as <-. injection Hp2 as <-.
  assert (Hlen : (1 <= Z.of_nat (length (np_sort a)))%Z).
  { rewrite np_sort_length. destruct a; [done|]. simpl. lia. }
  set (m := (Z.of_nat (length (np_sort a)) - 1)%Z) in *.
  assert (Hm : 0 <= inject_Z m).
  { change 0 with (inject_Z 0). rewrite <- Zle_Qle. lia. }
  assert (Hx1 : 0 <= q1 / 100) by (unfold Qdiv; change (/ 100) with (1 # 100); lra).
  assert (Hx12 : q1 / 100 <= q2 / 100)
    by (unfold Qdiv; change (/ 100) with (1 # 100); lra).
  assert (Hx2 : q2 / 100 <= 1) by (unfold Qdiv; change (/ 100) with (1 # 100); lra).
  generalize dependent (q1 / 100). generalize dependent (q2 / 100).
  intros x2 Hx2 x1 Hx1 Hx12.
  apply interpolate_mono.
  - apply np_sort_sorted.
  - nra.
  - nra.
  - fold m. nra.
Qed.

(** ** Truncation and the partition of the sample count *)

Lemma py_int_floor (x : Q) : 0 <= x → py_int x = Qfloor x.
Proof.
  destruct x as [num den]. unfold Qle, py_int, Qfloor. simpl.
  intros H. apply Z.quot_div_nonneg; lia.
Qed.

Lemma py_int_nonneg_bounds (n : Z) (w : Q) :
  (0 <= n)%Z → 0 <= w → w <= 1 →
  (0 <= py_int (inject_Z n * w) <= n)%Z
  ∧ inject_Z (py_int (inject_Z n * w)) <= inject_Z n * w.
Proof.
  intros Hn Hw0 Hw1.
  assert (Hn' : 0 <= inject_Z n).
  { change 0 with (inject_Z 0). by rewrite <- Zle_Qle. }
  assert (Hx0 : 0 <= inject_Z n * w) by nra.
  assert (Hx1 : inject_Z n * w <= inject_Z n) by nra.
  rewrite py_int_floor by done. repeat split.
  - rewrite <- (Qfloor_Z 0). by apply Qfloor_resp_le.
  - rewrite <- (Qfloor_Z n) at 2. by apply Qfloor_resp_le.
  - apply Qfloor_le.
Qed.

Lemma py_int_nonpos (x : Q) : x <= 0 → (py_int x <= 0)%Z.
Proof.
  destruct x as [num den]. unfold Qle, py_int. simpl. intros H.
  apply Z.quot_le_upper_bound; lia.
Qed.

Lemma mixture_weights_cases bias :
  mixture_weights bias = (0.3, 0.7)
  ∨ mixture_weights bias = (0.7, 0.3)
  ∨ mixture_weights bias = (0.5, 0.5).
Proof. unfold mixture_weights. repeat case_bool_decide; auto. Qed.

Lemma mixture_weights_unit bias :
  0 < fst (mixture_weights bias) ∧ fst (mixture_weights bias) < 1.
Proof.
  destruct (mixture_weights_cases bias) as [-> | [-> | ->]]; simpl; lra.
Qed.


(** ** The sampler and the shuffle *)

Lemma Qgt_bool_false (a b : Q) : a <= b → Qgt_bool a b = false.
Proof.
  intros H. unfold Qgt_bool.
  destruct (Qcompare_spec a b) as [Heq|Hlt|Hgt]; [done|done|lra].
Qed.

Lemma Qgt_bool_true (a b : Q) : b < a → Qgt_bool a b = true.
Proof.
  intros H. unfold Qgt_bool. apply Qgt_alt in H. by rewrite H.
Qed.

Lemma Qgt_bool_spec (a b : Q) : Qgt_bool a b = true ↔ b < a.
Proof.
  split; [|apply Qgt_bool_true].
  unfold Qgt_bool. by destruct (Qcompare_spec a b) as [Heq|Hlt|Hgt].
Qed.

Lemma np_random_normal_returns loc scale size rs :
  0 <= scale → (0 <= size)%Z →
  ∃ draws, np_random_normal loc scale size rs
           = (Ret draws, advance rs (Z.to_nat size))
           ∧ length draws = Z.to_nat size.
Proof.
  intros Hs Hn. unfold np_random_normal.
  rewrite Qgt_bool_false by done.
  rewrite bool_decide_eq_false_2 by lia.
  eexists. split; [reflexivity|].
  by rewrite length_fmap, length_seq.
Qed.

Lemma np_random_normal_length loc scale size rs draws rs' :
  np_random_normal loc scale size rs = (Ret draws, rs') →
  (0 <= size)%Z ∧ 0 <= scale ∧ length draws = Z.to_nat size.
Proof.
  unfold np_random_normal. intros H.
  destruct (Qgt_bool 0 scale) eqn:Hscale; [done|].
  case_bool_decide; [done|].
  injection H as <- <-.
  rewrite length_fmap, length_seq.
  split; [lia|]. split; [|done].
  destruct (Qlt_le_dec scale 0) as [Hlt|Hle]; [|done].
  apply Qgt_bool_true in Hlt. congruence.
Qed.

Lemma np_random_normal_negative_size loc scale size rs :
  (size < 0)%Z → fst (np_random_normal loc scale size rs) = Raise ValueError.
Proof.
  intros Hn. unfold np_random_normal.
  destruct (Qgt_bool 0 scale); [done|].
  by rewrite bool_decide_eq_true_2.
Qed.

Lemma swap_length xs i j : length (swap xs i j) = length xs.
Proof.
  unfold swap. destruct (xs !! i), (xs !! j); try done.
  by rewrite !length_insert.
Qed.

Lemma shuffle_from_length i xs rs :
  length (fst (shuffle_from i xs rs)) = length xs.
Proof.
  revert xs rs. induction i as [|i IH]; intros xs rs; simpl; [done|].
  by rewrite IH, swap_length.
Qed.

Lemma np_random_shuffle_length xs rs ys rs' :
  np_random_shuffle xs rs = (Ret ys, rs') → length ys = length xs.
Proof.
  unfold np_random_shuffle. intros H.
  pose proof (shuffle_from_length (length xs - 1) xs rs) as Hlen.
  destruct (shuffle_from (length xs - 1) xs rs) as [zs rs''].
  injection H as <- <-. exact Hlen.
Qed.

Lemma np_random_shuffle_returns xs rs :
  ∃ ys rs', np_random_shuffle xs rs = (Ret ys, rs').
Proof.
  unfold np_random_shuffle.
  destruct (shuffle_from (length xs - 1) xs rs) as [zs rs'']. eauto.
Qed.

Lemma np_percentile_returns a q :
  a ≠ [] → ∃ p, np_percentile a q = Ret p.
Proof. intros Ha. rewrite np_percentile_interpolate by done. eauto. Qed.

Lemma np_percentiles_five a q1 q2 q3 q4 q5 :
  a ≠ [] →
  ∃ p1 p2 p3 p4 p5,
    np_percentiles a [q1; q2; q3; q4; q5] = Ret [p1; p2; p3; p4; p5]
    ∧ np_percentile a q1 = Ret p1 ∧ np_percentile a q2 = Ret p2
    ∧ np_percentile a q3 = Ret p3 ∧ np_percentile a q4 = Ret p4
    ∧ np_percentile a q5 = Ret p5.
Proof.
  intros Ha.
  destruct (np_percentile_returns a q1 Ha) as [p1 H1].
  destruct (np_percentile_returns a q2 Ha) as [p2 H2].
  destruct (np_percentile_returns a q3 Ha) as [p3 H3].
  destruct (np_percentile_returns a q4 Ha) as [p4 H4].
  destruct (np_percentile_returns a q5 Ha) as [p5 H5].
  exists p1, p2, p3, p4, p5. simpl. rewrite H1, H2, H3, H4, H5. simpl.
  by repeat split.
Qed.

Lemma np_percentiles_empty qs q : np_percentiles [] (q :: qs) = Raise IndexError.
Proof. reflexivity. Qed.

(** ** [compute_posterior] step by step *)

Section Posterior.

Variable L : NumLib.
Variable self : BayesianTrueRange.
Variable metric_name : string.
Variable metric : ContestedMetric.
Hypothesis metric_found : contested_metrics self !! metric_name = Some metric.

Let w : Q * Q := mixture_weights (prior_bias metric).

(** Every returned posterior was assembled by the four library calls
    in the order the source makes them. *)
Lemma compute_posterior_inv n_samples rs p rs' :
  compute_posterior L self metric_name n_samples rs = (Ret (Some p), rs') →
  ∃ official_samples independent_samples rs1 rs2 p5 p25 p50 p75 p95,
    np_random_normal (mean (official metric)) (std (official metric))
      (fst (partition_sizes n_samples (fst w))) rs
    = (Ret official_samples, rs1)
    ∧ np_random_normal (mean (independent metric)) (std (independent metric))
        (snd (partition_sizes n_samples (fst w))) rs1
      = (Ret independent_samples, rs2)
    ∧ np_random_shuffle (official_samples ++ independent_samples) rs2
      = (Ret (samples p), rs')
    ∧ np_percentiles (samples p) [5; 25; 50; 75; 95]
      = Ret [p5; p25; p50; p75; p95]
    ∧ p = {| samples := samples p;
             posterior_mean := np_mean (samples p);
             median := p50;
             posterior_std := np_std L (samples p);
             ci_90 := (p5, p95);
             ci_50 := (p25, p75);
             posterior_official := official metric;
             posterior_independent := independent metric;
             weights := w |}.
Proof.
  unfold compute_posterior. rewrite metric_found. subst w.
  destruct (mixture_weights (prior_bias metric)) as [wo wi].
  unfold partition_sizes, mbind, rand_bind, mret, rand_ret, lift.
  cbv beta match zeta.
  destruct (np_random_normal _ _ _ rs) as [[off|e1] rs1] eqn:H1; [|done].
  destruct (np_random_normal _ _ _ rs1) as [[ind|e2] rs2] eqn:H2; [|done].
  destruct (np_random_shuffle _ rs2) as [[post|e3] rs3] eqn:H3; [|done].
  destruct (np_percentiles post _) as [ps|e4] eqn:Hps; [|done].
  destruct ps as [|p5 [|p25 [|p50 [|p75 [|p95 [|? ?]]]]]]; try done.
  intros H. injection H as <- <-. cbn [samples].
  exists off, ind, rs1, rs2, p5, p25, p50, p75, p95.
  repeat split; assumption.
Qed.

(** With non-negative spreads and a positive sample count every
    library call returns, hence so does [compute_posterior]. *)
Lemma compute_posterior_returns n_samples rs :
  0 <= std (official metric) → 0 <= std (independent metric) →
  (1 <= n_samples)%Z →
  ∃ p rs', compute_posterior L self metric_name n_samples rs
           = (Ret (Some p), rs')
           ∧ length (samples p) = Z.to_nat n_samples.
Proof.
  intros Hso Hsi Hn.
  destruct (mixture_weights_unit (prior_bias metric)) as [Hw0 Hw1].
  destruct (py_int_nonneg_bounds n_samples (fst (mixture_weights (prior_bias metric))))
    as [[Hlo Hhi] _]; [lia|lra|lra|].
  unfold compute_posterior. rewrite metric_found.
  destruct (mixture_weights (prior_bias metric)) as [wo wi]. cbn [fst] in *.
  unfold partition_sizes, mbind, rand_bind, mret, rand_ret, lift.
  set (n_official := py_int (inject_Z n_samples * wo)) in *.
  destruct (np_random_normal_returns (mean (official metric))
              (std (official metric)) n_official rs)
    as (off & -> & Hoff); [done|lia|].
  destruct (np_random_normal_returns (mean (independent metric))
              (std (independent metric)) (n_samples - n_official)
              (advance rs (Z.to_nat n_official)))
    as (ind & -> & Hind); [done|lia|].
  destruct (np_random_shuffle_returns (off ++ ind)
              (advance (advance rs (Z.to_nat n_official))
                 (Z.to_nat (n_samples - n_official))))
    as (post & rs3 & Hsh).
  rewrite Hsh.
  assert (Hlen : length post = Z.to_nat n_samples).
  { rewrite (np_random_shuffle_length _ _ _ _ Hsh), length_app, Hoff, Hind.
    lia. }
  assert (Hne : post ≠ []).
  { intros ->. simpl in Hlen. lia. }
  cbv beta match zeta.
  destruct (np_percentiles_five post 5 25 50 75 95 Hne)
    as (p5 & p25 & p50 & p75 & p95 & -> & _).
  eexists _, _. split; [reflexivity|]. exact Hlen.
Qed.

(** A negative sample count never gets past the sampler. *)
Lemma compute_posterior_negative n_samples rs :
  (n_samples < 0)%Z →
  fst (compute_posterior L self metric_name n_samples rs) = Raise ValueError.
Proof.
  intros Hn.
  destruct (mixture_weights_unit (prior_bias metric)) as [Hw0 Hw1].
  unfold compute_posterior. rewrite metric_found.
  destruct (mixture_weights (prior_bias metric)) as [wo wi]. cbn [fst] in *.
  unfold partition_sizes, mbind, rand_bind, mret, rand_ret, lift.
  cbv beta match zeta.
  set (n_official := py_int (inject_Z n_samples * wo)).
  assert (Hno : (n_official <= 0)%Z).
  { apply py_int_nonpos.
    assert (inject_Z n_samples <= 0).
    { change 0 with (inject_Z 0). rewrite <- Zle_Qle. lia. }
    nra. }
  destruct (np_random_normal _ _ n_official rs) as [[off|e1] rs1] eqn:H1.
  - apply np_random_normal_length in H1 as (Hge & _ & _).
    pose proof (np_random_normal_negative_size (mean (independent metric))
                  (std (independent metric)) (n_samples - n_official) rs1)
      as H2.
    destruct (np_random_normal _ _ (n_samples - n_official) rs1)
      as [[ind|e2] rs2]; simpl in *.
    + discriminate H2. lia.
    + assert (He : e2 = ValueError) by (injection H2 as ->; [done|lia]).
      by rewrite He.
  - simpl. unfold np_random_normal in H1.
    destruct (Qgt_bool 0 (std (official metric))); [by simplify_eq|].
    case_bool_decide; by simplify_eq.
Qed.

End Posterior.

Lemma np_percentiles_five_inv a q1 q2 q3 q4 q5 p1 p2 p3 p4 p5 :
  np_percentiles a [q1; q2; q3; q4; q5] = Ret [p1; p2; p3; p4; p5] →
  np_percentile a q1 = Ret p1 ∧ np_percentile a q2 = Ret p2
  ∧ np_percentile a q3 = Ret p3 ∧ np_percentile a q4 = Ret p4
  ∧ np_percentile a q5 = Ret p5.
Proof.
  simpl. unfold mbind, pyresult_bind.
  destruct (np_percentile a q1), (np_percentile a q2), (np_percentile a q3),
    (np_percentile a q4), (np_percentile a q5); intros H; by simplify_eq.
Qed.

Lemma compute_posterior_unknown L self metric_name n_samples rs :
  contested_metrics self !! metric_name = None →
  compute_posterior L self metric_name n_samples rs = (Ret None, rs).
Proof. intros H. unfold compute_posterior. by rewrite H. Qed.

(** ** Claims about the posterior reconciliation engine *)



(** C5.  For a metric of the catalog with non-negative spreads and a
    sample count of at least 2, [compute_posterior] returns a posterior
    whose [samples] has exactly [n_samples] entries: the shuffled
    concatenation of the official and the independent draws. *)
Theorem compute_posterior_sample_count
    L self metric_name metric n_samples rs :
  contested_metrics self !! metric_name = Some metric →
  0 <= std (official metric) → 0 <= std (independent metric) →
  (2 <= n_samples)%Z →
  ∃ p rs',
    compute_posterior L self metric_name n_samples rs = (Ret (Some p), rs')
    ∧ Z.of_nat (length (samples p)) = n_samples
    ∧ ∃ official_samples independent_samples rs2,
        np_random_shuffle (official_samples ++ independent_samples) rs2
        = (Ret (samples p), rs')
        ∧ Z.of_nat (length (official_samples ++ independent_samples))
          = n_samples.
Proof.
  intros Hfound Hso Hsi Hn.
  destruct (compute_posterior_returns L self metric_name metric Hfound
              n_samples rs Hso Hsi) as (p & rs' & Hret & Hlen); [lia|].
  exists p, rs'. split; [exact Hret|]. split; [lia|].
  destruct (compute_posterior_inv L self metric_name metric Hfound
              n_samples rs p rs' Hret)
    as (off & ind & rs1 & rs2 & _ & _ & _ & _ & _ & _ & _ & Hsh & _).
  exists off, ind, rs2. split; [exact Hsh|].
  rewrite <- (np_random_shuffle_length _ _ _ _ Hsh). lia.
Qed.

(** C8.  In every posterior [compute_posterior] returns, the 50%
    interval lies inside the 90% interval, and the median inside the
    50% interval. *)
Theorem credible_intervals_nested L self metric_name n_samples rs p rs' :
  compute_posterior L self metric_name n_samples rs = (Ret (Some p), rs') →
  fst (ci_90 p) <= fst (ci_50 p)
  ∧ fst (ci_50 p) <= snd (ci_50 p)
  ∧ snd (ci_50 p) <= snd (ci_90 p)
  ∧ fst (ci_50 p) <= median p ∧ median p <= snd (ci_50 p).
Proof.
  intros Hret.
  destruct (contested_metrics self !! metric_name) as [metric|] eqn:Hfound.
  2: { rewrite compute_posterior_unknown in Hret by done. by simplify_eq. }
  destruct (compute_posterior_inv L self metric_name metric Hfound
              n_samples rs p rs' Hret)
    as (off & ind & rs1 & rs2 & p5 & p25 & p50 & p75 & p95
        & _ & _ & _ & Hps & Hp).
  apply np_percentiles_five_inv in Hps as (H5 & H25 & H50 & H75 & H95).
  rewrite Hp. cbn [ci_90 ci_50 median fst snd].
  repeat split.
  - apply (np_percentile_mono (samples p) 5 25); [lra|lra|lra|done|done].
  - apply (np_percentile_mono (samples p) 25 75); [lra|lra|lra|done|done].
  - apply (np_percentile_mono (samples p) 75 95); [lra|lra|lra|done|done].
  - apply (np_percentile_mono (samples p) 25 50); [lra|lra|lra|done|done].
  - apply (np_percentile_mono (samples p) 50 75); [lra|lra|lra|done|done].
Qed.

Lemma np_percentile_singleton x q :
  ∃ p, np_percentile [x] q = Ret p ∧ p == x.
Proof.
  eexists. split; [reflexivity|].
  cbn [np_sort foldr insert_sorted length].
  change (Z.of_nat 1 - 1)%Z with 0%Z.
  assert (Hfl : Qfloor (inject_Z 0 * (q / 100)) = 0%Z).
  { transitivity (Qfloor 0); [|reflexivity].
    apply Qfloor_comp. change (inject_Z 0) with 0. ring. }
  rewrite Hfl. change (Z.min (0 + 1) 0) with 0%Z.
  unfold at_index. simpl nth. ring.
Qed.

(** C9, as the code has it.  [compute_posterior] has no check on the
    sample count.  With [n_samples = 1] it returns a posterior built
    from a single draw, taken from the independent estimate, and every
    percentile equals that draw; a negative count is refused only
    because the sampler raises [ValueError] for a negative size. *)
Theorem compute_posterior_unchecked_sample_count
    L self metric_name metric rs :
  contested_metrics self !! metric_name = Some metric →
  0 <= std (official metric) → 0 <= std (independent metric) →
  (∃ p rs' x,
     compute_posterior L self metric_name 1 rs = (Ret (Some p), rs')
     ∧ samples p = [x]
     ∧ x = mean (independent metric)
           + std (independent metric) * deviates rs (cursor rs)
     ∧ median p == x
     ∧ fst (ci_90 p) == x ∧ snd (ci_90 p) == x
     ∧ fst (ci_50 p) == x ∧ snd (ci_50 p) == x)
  ∧ ∀ n_samples, (n_samples < 0)%Z →
      fst (compute_posterior L self metric_name n_samples rs)
      = Raise ValueError.
Proof.
  intros Hfound Hso Hsi. split.
  2: { intros n Hn. by apply (compute_posterior_negative L self metric_name metric). }
  destruct (compute_posterior_returns L self metric_name metric Hfound
              1 rs Hso Hsi) as (p & rs' & Hret & Hlen); [lia|].
  destruct (compute_posterior_inv L self metric_name metric Hfound
              1 rs p rs' Hret)
    as (off & ind & rs1 & rs2 & p5 & p25 & p50 & p75 & p95
        & Hoff & Hind & Hsh & Hps & Hp).
  assert (Hno : fst (partition_sizes 1 (fst (mixture_weights (prior_bias metric)))) = 0%Z).
  { destruct (mixture_weights_cases (prior_bias metric)) as [-> | [-> | ->]];
      reflexivity. }
  assert (Hni : snd (partition_sizes 1 (fst (mixture_weights (prior_bias metric)))) = 1%Z).
  { destruct (mixture_weights_cases (prior_bias metric)) as [-> | [-> | ->]];
      reflexivity. }
  rewrite Hno in Hoff. rewrite Hni in Hind.
  unfold np_random_normal in Hoff, Hind.
  rewrite Qgt_bool_false in Hoff, Hind by done.
  rewrite bool_decide_eq_false_2 in Hoff, Hind by lia.
  cbn in Hoff, Hind.
  injection Hoff as <- <-. injection Hind as <- _.
  unfold np_random_shuffle in Hsh. cbn in Hsh.
  injection Hsh as Hs _. rewrite !Nat.add_0_r in Hs. symmetry in Hs.
  set (x := mean (independent metric)
            + std (independent metric) * deviates rs (cursor rs)) in *.
  exists p, rs', x. split; [exact Hret|].
  split; [exact Hs|]. split; [reflexivity|].
  rewrite Hs in Hps.
  apply np_percentiles_five_inv in Hps as (H5 & H25 & H50 & H75 & H95).
  rewrite Hp. cbn [median ci_90 ci_50 fst snd].
  destruct (np_percentile_singleton x 5) as (y5 & Hy5 & E5).
  destruct (np_percentile_singleton x 25) as (y25 & Hy25 & E25).
  destruct (np_percentile_singleton x 50) as (y50 & Hy50 & E50).
  destruct (np_percentile_singleton x 75) as (y75 & Hy75 & E75).
  destruct (np_percentile_singleton x 95) as (y95 & Hy95 & E95).
  rewrite H5 in Hy5. rewrite H25 in Hy25. rewrite H50 in Hy50.
  rewrite H75 in Hy75. rewrite H95 in Hy95.
  injection Hy5 as ->. injection Hy25 as ->. injection Hy50 as ->.
  injection Hy75 as ->. injection Hy95 as ->.
  auto.
Qed.


(** C9, as the specification words it, fails: a sample count of 1 is
    neither refused nor raised to 2. *)
Lemma compute_posterior_single_sample_accepted :
  ∃ p rs',
    compute_posterior (Reference.lib Reference.SeedIsOptimal) Reference.catalog
      "Daily Detention Population" 1 Reference.random_state
    = (Ret (Some p), rs')
    ∧ length (samples p) = 1%nat.
Proof. eexists _, _. split; [by vm_compute | reflexivity]. Qed.



Lemma compute_posterior_sample_count_witness :
  contested_metrics Reference.catalog !! "Annual Removals"
  = Some Reference.annual_removals
  ∧ 0 <= std (official Reference.annual_removals)
  ∧ 0 <= std (independent Reference.annual_removals)
  ∧ (2 <= 10)%Z
  ∧ ∃ p rs',
      compute_posterior (Reference.lib Reference.SeedIsOptimal)
        Reference.catalog "Annual Removals" 10 Reference.random_state
      = (Ret (Some p), rs')
      ∧ Z.of_nat (length (samples p)) = 10%Z.
Proof.
  split; [by vm_compute|].
  split; [by vm_compute|]. split; [by vm_compute|]. split; [lia|].
  destruct (compute_posterior_sample_count
              (Reference.lib Reference.SeedIsOptimal) Reference.catalog
              "Annual Removals" Reference.annual_removals 10 Reference.random_state)
    as (p & rs' & Hret & Hlen & _);
    [by vm_compute | by vm_compute | by vm_compute | lia |].
  exists p, rs'. by split.
Defined.

Lemma credible_intervals_nested_witness :
  ∃ p rs',
    compute_posterior (Reference.lib Reference.SeedIsOptimal) Reference.catalog
      "Deaths in/after Custody (Annual)" 10 Reference.random_state
    = (Ret (Some p), rs')
    ∧ fst (ci_90 p) <= fst (ci_50 p)
    ∧ fst (ci_50 p) <= snd (ci_50 p)
    ∧ snd (ci_50 p) <= snd (ci_90 p).
Proof.
  eexists _, _. split; [by vm_compute|].
  pose proof (credible_intervals_nested
                (Reference.lib Reference.SeedIsOptimal) Reference.catalog
                "Deaths in/after Custody (Annual)" 10 Reference.random_state
                _ _ ltac:(by vm_compute)) as (H1 & H2 & H3 & _).
  by repeat split.
Defined.

Lemma compute_posterior_unchecked_sample_count_witness :
  contested_metrics Reference.catalog !! "Family Separations (2017-2021)"
  = Some Reference.family_separations
  ∧ 0 <= std (official Reference.family_separations)
  ∧ 0 <= std (independent Reference.family_separations)
  ∧ ∃ p rs',
      compute_posterior (Reference.lib Reference.SeedIsOptimal)
        Reference.catalog "Family Separations (2017-2021)" 1
        Reference.random_state
      = (Ret (Some p), rs')
      ∧ length (samples p) = 1%nat.
Proof.
  split; [by vm_compute|].
  split; [by vm_compute|]. split; [by vm_compute|].
  destruct (compute_posterior_unchecked_sample_count
              (Reference.lib Reference.SeedIsOptimal) Reference.catalog
              "Family Separations (2017-2021)" Reference.family_separations
              Reference.random_state)
    as [(p & rs' & x & Hret & Hs & _) _];
    [by vm_compute | by vm_compute | by vm_compute |].
  exists p, rs'. split; [exact Hret|]. by rewrite Hs.
Defined.

(** ** Paired removal of missing values *)

Section Cleaning.

Lemma not_nan_mask_length (values : list (option Q)) :
  length (not_nan_mask values) = length values.
Proof. unfold not_nan_mask. by rewrite length_map. Qed.

Lemma bool_index_years (years : list Q) (values : list (option Q)) :
  length years = length values →
  bool_index years (not_nan_mask values) = Ret (valid_years years values).
Proof.
  intros H. unfold bool_index.
  by rewrite bool_decide_eq_true_2 by (by rewrite not_nan_mask_length).
Qed.

Lemma bool_index_years_mismatch (years : list Q) (values : list (option Q)) :
  length years ≠ length values →
  bool_index years (not_nan_mask values) = Raise IndexError.
Proof.
  intros H. unfold bool_index.
  by rewrite bool_decide_eq_false_2 by (by rewrite not_nan_mask_length).
Qed.

Lemma bool_index_values (values : list (option Q)) :
  numbers <$> bool_index values (not_nan_mask values)
  = Ret (valid_values values).
Proof.
  unfold bool_index.
  by rewrite bool_decide_eq_true_2 by (by rewrite not_nan_mask_length).
Qed.

(** What is kept is exactly the numbers, in order. *)
Lemma valid_values_numbers (values : list (option Q)) : valid_values values = numbers values.
Proof.
  unfold valid_values, numbers, not_nan_mask.
  induction values as [|[v|] values IH]; simpl; [done| |done].
  f_equal. exact IH.
Qed.

(** Removal is paired: as many years are kept as values. *)
Lemma valid_years_length (years : list Q) (values : list (option Q)) :
  length years = length values →
  length (valid_years years values) = length (valid_values values).
Proof.
  unfold valid_years, valid_values, numbers, not_nan_mask.
  revert values. induction years as [|y years IH];
    intros [|[v|] values] Hlen; simpl in *; try done.
  - f_equal. apply IH. lia.
  - apply IH. lia.
Qed.

(** Each kept year sits at the position of its value. *)
Lemma valid_pairs_zip (years : list Q) (values : list (option Q)) :
  length years = length values →
  zip (valid_years years values) (valid_values values)
  = omap (fun yv => match snd yv with
                    | Some v => Some (fst yv, v)
                    | None => None
                    end) (zip years values).
Proof.
  unfold valid_years, valid_values, numbers, not_nan_mask.
  revert values. induction years as [|y years IH];
    intros [|[v|] values] Hlen; simpl in *; try done.
  - f_equal. apply IH. lia.
  - apply IH. lia.
Qed.

(** Cleaning already clean data changes nothing. *)
Lemma valid_years_clean (years values : list Q) :
  length years = length values →
  valid_years years (Some <$> values) = years.
Proof.
  unfold valid_years, not_nan_mask.
  revert values. induction years as [|y years IH];
    intros [|v values] Hlen; simpl in *; try done.
  f_equal. apply IH. lia.
Qed.

Lemma valid_values_clean (values : list Q) :
  valid_values (Some <$> values) = values.
Proof.
  rewrite valid_values_numbers. unfold numbers.
  induction values as [|v values IH]; simpl; [done|]. f_equal. exact IH.
Qed.

End Cleaning.

(** ** [fit_trend], branch by branch *)

Section FitTrend.

Variable L : NumLib.

Lemma fit_trend_depth_unfold d (years : list Q) (values : list (option Q))
    (model_type : string) :
  length years = length values →
  fit_trend_depth (S d) L years values model_type
  = let ys := valid_years years values in
    let vs := valid_values values in
    if bool_decide (length ys < 3)%nat then Ret None
    else if bool_decide (model_type = "linear") then fit_linear L ys vs
    else if bool_decide (model_type = "exponential") then
      try_except (fit_exponential L ys vs) caught
        (fit_trend_depth d L ys (Some <$> vs) "linear")
    else if bool_decide (model_type = "logistic") then
      try_except (fit_logistic L ys vs) caught
        (fit_trend_depth d L ys (Some <$> vs) "linear")
    else Ret None.
Proof.
  intros Hlen. cbn [fit_trend_depth].
  rewrite bool_index_years, bool_index_values by done.
  reflexivity.
Qed.

(** Arrays of different lengths: the mask does not fit [years]. *)
Lemma fit_trend_depth_mismatch d (years : list Q)
    (values : list (option Q)) (model_type : string) :
  length years ≠ length values →
  fit_trend_depth (S d) L years values model_type = Raise IndexError.
Proof.
  intros Hlen. cbn [fit_trend_depth].
  by rewrite bool_index_years_mismatch.
Qed.

(** The call the two handlers make: a linear fit of the cleaned data. *)
Lemma fit_trend_depth_fallback d (ys vs : list Q) :
  length ys = length vs → (3 <= length ys)%nat →
  fit_trend_depth (S d) L ys (Some <$> vs) "linear" = fit_linear L ys vs.
Proof.
  intros Hlen H3.
  rewrite fit_trend_depth_unfold by (by rewrite length_fmap).
  cbv zeta. rewrite valid_years_clean, valid_values_clean by done.
  by rewrite bool_decide_eq_false_2 by lia.
Qed.

Section Cleaned.

Variable years : list Q.
Variable values : list (option Q).
Hypothesis same_length : length years = length values.

Let ys : list Q := valid_years years values.
Let vs : list Q := valid_values values.

Lemma cleaned_same_length : length ys = length vs.
Proof. by apply valid_years_length. Qed.

Lemma fit_trend_short model_type :
  (length vs < 3)%nat → fit_trend L years values model_type = Ret None.
Proof.
  intros Hshort. unfold fit_trend.
  rewrite fit_trend_depth_unfold by done. cbv zeta.
  fold ys. rewrite cleaned_same_length.
  by rewrite bool_decide_eq_true_2.
Qed.

Hypothesis enough : (3 <= length vs)%nat.

Lemma fit_trend_linear :
  fit_trend L years values "linear" = fit_linear L ys vs.
Proof.
  unfold fit_trend. rewrite fit_trend_depth_unfold by done. cbv zeta.
  fold ys vs. rewrite cleaned_same_length.
  by rewrite bool_decide_eq_false_2 by lia.
Qed.

Lemma fit_trend_exponential :
  fit_trend L years values "exponential"
  = try_except (fit_exponential L ys vs) caught (fit_linear L ys vs).
Proof.
  unfold fit_trend. rewrite fit_trend_depth_unfold by done. cbv zeta.
  fold ys vs. rewrite cleaned_same_length.
  rewrite bool_decide_eq_false_2 by lia.
  rewrite fit_trend_depth_fallback
    by (rewrite ?cleaned_same_length; done || lia).
  reflexivity.
Qed.

Lemma fit_trend_logistic :
  fit_trend L years values "logistic"
  = try_except (fit_logistic L ys vs) caught (fit_linear L ys vs).
Proof.
  unfold fit_trend. rewrite fit_trend_depth_unfold by done. cbv zeta.
  fold ys vs. rewrite cleaned_same_length.
  rewrite bool_decide_eq_false_2 by lia.
  rewrite fit_trend_depth_fallback
    by (rewrite ?cleaned_same_length; done || lia).
  reflexivity.
Qed.

End Cleaned.

Lemma fit_trend_unknown_kind (years : list Q) (values : list (option Q))
    (model_type : string) :
  length years = length values → model_type ∉ known_kinds →
  fit_trend L years values model_type = Ret None.
Proof.
  intros Hlen Hkind. unfold fit_trend.
  rewrite fit_trend_depth_unfold by done. cbv zeta.
  unfold known_kinds in Hkind.
  rewrite !not_elem_of_cons in Hkind. destruct Hkind as (H1 & H2 & H3 & _).
  rewrite (bool_decide_eq_false_2 _ H1), (bool_decide_eq_false_2 _ H2),
    (bool_decide_eq_false_2 _ H3).
  by case_bool_decide.
Qed.

(** The recursion of the handlers never goes deeper than two calls:
    running [fit_trend] with a larger bound gives the same result. *)
Lemma fit_trend_depth_stable d (years : list Q) (values : list (option Q))
    (model_type : string) :
  fit_trend_depth (S (S d)) L years values model_type
  = fit_trend L years values model_type.
Proof.
  unfold fit_trend.
  destruct (decide (length years = length values)) as [Hlen|Hlen].
  2: { by rewrite !fit_trend_depth_mismatch. }
  rewrite !(fit_trend_depth_unfold _ years) by done. cbv zeta.
  pose proof (valid_years_length years values Hlen) as Hc.
  case_bool_decide; [done|].
  rewrite !fit_trend_depth_fallback by (done || lia).
  reflexivity.
Qed.

End FitTrend.

(** ** What [fit_trend] returns *)

Section FitTrendResults.

Variable L : NumLib.

Lemma fit_linear_cases ys vs :
  (∃ lr, linregress L ys vs = Ret lr
         ∧ fit_linear L ys vs
           = Ret (Some (LinearModel (slope lr) (intercept lr)
                          (r_value lr * r_value lr) (std_err lr)
                          (np_std L (residuals_of
                                       (fun y => slope lr * y + intercept lr)
                                       ys vs)))))
  ∨ (∃ e, linregress L ys vs = Raise e ∧ fit_linear L ys vs = Raise e).
Proof.
  unfold fit_linear, mbind, pyresult_bind.
  destruct (linregress L ys vs) as [lr|e]; eauto.
Qed.

Lemma fit_exponential_cases ys vs :
  (∃ popt r2 s,
      curve_fit L (exp_func L (hd 0 ys)) ys vs (exponential_seed vs) 5000
      = Ret popt
      ∧ fit_exponential L ys vs
        = Ret (Some (ExponentialModel popt (hd 0 ys) r2 (np_std L s))))
  ∨ (∃ e,
      curve_fit L (exp_func L (hd 0 ys)) ys vs (exponential_seed vs) 5000
      = Raise e
      ∧ fit_exponential L ys vs = Raise e).
Proof.
  unfold fit_exponential, mbind, pyresult_bind.
  destruct (curve_fit L _ ys vs _ _) as [popt|e]; eauto 10.
Qed.

Lemma fit_logistic_cases ys vs :
  (∃ popt r2 s,
      curve_fit L (logistic_func L) ys vs (logistic_seed ys vs) 5000
      = Ret popt
      ∧ fit_logistic L ys vs
        = Ret (Some (LogisticModel popt r2 (np_std L s))))
  ∨ (∃ e,
      curve_fit L (logistic_func L) ys vs (logistic_seed ys vs) 5000
      = Raise e
      ∧ fit_logistic L ys vs = Raise e).
Proof.
  unfold fit_logistic, mbind, pyresult_bind.
  destruct (curve_fit L _ ys vs _ _) as [popt|e]; eauto 10.
Qed.

(** A returned model is the output of one of the three branches, run
    on the cleaned data of at least three points. *)
Lemma fit_trend_Some_inv (years : list Q) (values : list (option Q))
    (model_type : string) (m : TrendModel) :
  fit_trend L years values model_type = Ret (Some m) →
  length years = length values
  ∧ (3 <= length (valid_values values))%nat
  ∧ (fit_linear L (valid_years years values) (valid_values values)
     = Ret (Some m)
     ∨ model_type = "exponential"
       ∧ fit_exponential L (valid_years years values) (valid_values values)
         = Ret (Some m)
     ∨ model_type = "logistic"
       ∧ fit_logistic L (valid_years years values) (valid_values values)
         = Ret (Some m)).
Proof.
  intros Hfit.
  destruct (decide (length years = length values)) as [Hlen|Hlen].
  2: { unfold fit_trend in Hfit.
       by rewrite fit_trend_depth_mismatch in Hfit. }
  split; [done|].
  destruct (decide (length (valid_values values) < 3)%nat) as [Hs|Hs].
  { by rewrite fit_trend_short in Hfit. }
  split; [lia|].
  destruct (decide (model_type = "linear")) as [->|Hl].
  { rewrite fit_trend_linear in Hfit by (done || lia). auto. }
  destruct (decide (model_type = "exponential")) as [->|He].
  { rewrite fit_trend_exponential in Hfit by (done || lia).
    unfold try_except in Hfit.
    destruct (fit_exponential L _ _) as [r|e] eqn:Hexp.
    - simplify_eq. auto.
    - case_bool_decide; [auto|done]. }
  destruct (decide (model_type = "logistic")) as [->|Hg].
  { rewrite fit_trend_logistic in Hfit by (done || lia).
    unfold try_except in Hfit.
    destruct (fit_logistic L _ _) as [r|e] eqn:Hlog.
    - simplify_eq. auto.
    - case_bool_decide; [auto|done]. }
  rewrite fit_trend_unknown_kind in Hfit; [done|done|].
  unfold known_kinds. rewrite !not_elem_of_cons.
  repeat split; try done. apply not_elem_of_nil.
Qed.

(** The threshold: with equal-length inputs and a kind [fit_trend]
    knows, [None] is returned exactly when fewer than three pairs
    survive the removal. *)
Lemma fit_trend_None_iff (years : list Q) (values : list (option Q))
    (model_type : string) :
  length years = length values → model_type ∈ known_kinds →
  fit_trend L years values model_type = Ret None
  ↔ (length (valid_values values) < 3)%nat.
Proof.
  intros Hlen Hkind. split; [|by apply fit_trend_short].
  intros Hfit.
  destruct (decide (length (valid_values values) < 3)%nat) as [Hs|Hs];
    [done|exfalso].
  assert (Hlin : fit_linear L (valid_years years values) (valid_values values)
                 ≠ Ret None).
  { intros H. destruct (fit_linear_cases (valid_years years values)
                          (valid_values values))
      as [(? & _ & E)|(? & _ & E)]; congruence. }
  unfold known_kinds in Hkind.
  rewrite !elem_of_cons in Hkind.
  destruct Hkind as [->|[->|[->|Hk]]].
  - rewrite fit_trend_linear in Hfit by (done || lia). done.
  - rewrite fit_trend_exponential in Hfit by (done || lia).
    unfold try_except in Hfit.
    destruct (fit_exponential_cases (valid_years years values)
                (valid_values values))
      as [(? & ? & ? & _ & E)|(? & _ & E)]; rewrite E in Hfit; [done|].
    by case_bool_decide.
  - rewrite fit_trend_logistic in Hfit by (done || lia).
    unfold try_except in Hfit.
    destruct (fit_logistic_cases (valid_years years values)
                (valid_values values))
      as [(? & ? & ? & _ & E)|(? & _ & E)]; rewrite E in Hfit; [done|].
    by case_bool_decide.
  - by apply elem_of_nil in Hk.
Qed.

(** The handlers: an optimiser failure of a caught class is replaced
    by the linear fit of the same cleaned data. *)
Lemma fit_trend_exponential_fallback (years : list Q)
    (values : list (option Q)) e :
  length years = length values → (3 <= length (valid_values values))%nat →
  curve_fit L (exp_func L (hd 0 (valid_years years values)))
    (valid_years years values) (valid_values values)
    (exponential_seed (valid_values values)) 5000 = Raise e →
  e ∈ caught →
  fit_trend L years values "exponential"
  = fit_trend L (valid_years years values) (Some <$> valid_values values)
      "linear".
Proof.
  intros Hlen H3 Hcf He.
  rewrite fit_trend_exponential by done.
  unfold fit_trend at 1.
  rewrite fit_trend_depth_fallback by (by rewrite ?valid_years_length).
  unfold fit_exponential. rewrite Hcf.
  by apply try_except_caught.
Qed.

Lemma fit_trend_logistic_fallback (years : list Q)
    (values : list (option Q)) e :
  length years = length values → (3 <= length (valid_values values))%nat →
  curve_fit L (logistic_func L)
    (valid_years years values) (valid_values values)
    (logistic_seed (valid_years years values) (valid_values values)) 5000
  = Raise e →
  e ∈ caught →
  fit_trend L years values "logistic"
  = fit_trend L (valid_years years values) (Some <$> valid_values values)
      "linear".
Proof.
  intros Hlen H3 Hcf He.
  rewrite fit_trend_logistic by done.
  unfold fit_trend at 1.
  rewrite fit_trend_depth_fallback by (by rewrite ?valid_years_length).
  unfold fit_logistic. rewrite Hcf.
  by apply try_except_caught.
Qed.

(** An optimiser failure of any other class leaves [fit_trend]
    unhandled. *)
Lemma fit_trend_logistic_uncaught (years : list Q)
    (values : list (option Q)) e :
  length years = length values → (3 <= length (valid_values values))%nat →
  curve_fit L (logistic_func L)
    (valid_years years values) (valid_values values)
    (logistic_seed (valid_years years values) (valid_values values)) 5000
  = Raise e →
  e ∉ caught →
  fit_trend L years values "logistic" = Raise e.
Proof.
  intros Hlen H3 Hcf He.
  rewrite fit_trend_logistic by done.
  unfold fit_logistic. rewrite Hcf.
  by apply try_except_uncaught.
Qed.

(** Four coefficients cannot be fitted to three points: under SciPy's
    argument check the logistic branch raises on every input that
    keeps exactly three pairs. *)
Lemma fit_trend_logistic_three (years : list Q) (values : list (option Q)) :
  checks_arity L →
  length years = length values → length (valid_values values) = 3%nat →
  fit_trend L years values "logistic" = Raise TypeError.
Proof.
  intros Hcheck Hlen H3.
  apply fit_trend_logistic_uncaught; [done|lia| |].
  - apply Hcheck; rewrite H3; simpl; lia.
  - unfold caught. rewrite !not_elem_of_cons.
    repeat split; try done. apply not_elem_of_nil.
Qed.

End FitTrendResults.


Lemma reference_checks_arity s : checks_arity (Reference.lib s).
Proof.
  intros f xdata ydata p0 maxfev H1 Hlt. simpl. unfold Reference.fit.
  by rewrite !bool_decide_eq_true_2.
Qed.

(** ** Claims about [fit_trend] *)

(** C1.  After the paired removal of missing values, [fit_trend] returns
    [None] for the three model kinds exactly when fewer than three pairs
    remain, so two pairs give [None]; with exactly three pairs the
    logistic branch does not return a model: its four coefficients are
    more than the three points and the optimiser's argument check raises
    [TypeError], which neither handler catches. *)
Theorem fit_trend_three_point_threshold
    L (years : list Q) (values : list (option Q)) (model_type : string) :
  checks_arity L →
  length years = length values → model_type ∈ known_kinds →
  (fit_trend L years values model_type = Ret None
   ↔ (length (valid_values values) < 3)%nat)
  ∧ (length (valid_values values) = 2%nat →
     fit_trend L years values model_type = Ret None)
  ∧ (length (valid_values values) = 3%nat → model_type = "logistic" →
     fit_trend L years values model_type = Raise TypeError).
Proof.
  intros Hcheck Hlen Hkind. split; [by apply fit_trend_None_iff|]. split.
  - intros H2. apply fit_trend_short; [done|lia].
  - intros H3 ->. by apply fit_trend_logistic_three.
Qed.

Lemma fit_trend_three_point_threshold_witness :
  checks_arity (Reference.lib Reference.SeedIsOptimal)
  ∧ length Reference.years3 = length Reference.values3
  ∧ "logistic" ∈ known_kinds
  ∧ fit_trend (Reference.lib Reference.SeedIsOptimal)
      Reference.years3 Reference.values3 "logistic"
    = Raise TypeError.
Proof.
  split; [apply reference_checks_arity|]. split; [reflexivity|].
  assert (Hk : "logistic" ∈ known_kinds).
  { unfold known_kinds. rewrite !elem_of_cons. auto. }
  split; [exact Hk|].
  apply (fit_trend_three_point_threshold
           (Reference.lib Reference.SeedIsOptimal)
           Reference.years3 Reference.values3 "logistic");
    [apply reference_checks_arity | reflexivity | exact Hk
    | reflexivity | reflexivity].
Defined.



(** C10.  A model kind other than the three [fit_trend] has a branch
    for falls through every test and yields [None], however many valid
    pairs are supplied: the same result as for too few points. *)
Theorem fit_trend_unrecognized_kind
    L (years : list Q) (values : list (option Q)) (model_type : string) :
  length years = length values →
  model_type ≠ "linear" → model_type ≠ "exponential" →
  model_type ≠ "logistic" →
  fit_trend L years values model_type = Ret None
  ∧ ∀ (years' : list Q) (values' : list (option Q)) (model_type' : string),
      length years' = length values' →
      (length (valid_values values') < 3)%nat →
      fit_trend L years values model_type
      = fit_trend L years' values' model_type'.
Proof.
  intros Hlen Hl He Hg.
  assert (Hnone : fit_trend L years values model_type = Ret None).
  { apply fit_trend_unknown_kind; [done|].
    unfold known_kinds. rewrite !not_elem_of_cons.
    repeat split; try done. apply not_elem_of_nil. }
  split; [exact Hnone|].
  intros years' values' model_type' Hlen' Hshort.
  rewrite Hnone. symmetry. by apply fit_trend_short.
Qed.

Lemma fit_trend_unrecognized_kind_witness :
  length Reference.years_gap = length Reference.known_values
  ∧ "quadratic" ≠ "linear" ∧ "quadratic" ≠ "exponential"
  ∧ "quadratic" ≠ "logistic"
  ∧ fit_trend (Reference.lib Reference.SeedIsOptimal)
      Reference.years_gap Reference.known_values
      "quadratic"
    = Ret None.
Proof.
  split; [reflexivity|]. split; [done|]. split; [done|]. split; [done|].
  apply (fit_trend_unrecognized_kind (Reference.lib Reference.SeedIsOptimal)
           Reference.years_gap Reference.known_values
           "quadratic"); [reflexivity | done | done | done].
Defined.

(** ** [impute_missing_years], step by step *)

Section Imputation.

Variable L : NumLib.

Lemma impute_missing_years_unfold known_years known_values missing_years
    model_type confidence_level :
  impute_missing_years L known_years known_values missing_years
    model_type confidence_level
  = (model ← select_model L known_years known_values model_type;
     match model with
     | None => Ret None
     | Some model =>
       predictions ←
         for_each (fun acc year =>
                     p ← predict_year L model known_years
                           (z_score_of L confidence_level) year;
                     Ret (acc ++ [p]))
           [] missing_years;
       Ret (Some {| model := model;
                    predictions := predictions;
                    confidence_level := confidence_level;
                    model_type := model_type_of model;
                    imputation_r_squared := r_squared model |})
     end).
Proof. reflexivity. Qed.

Lemma predict_year_eq model known_years max_known z_score year :
  py_max known_years = Ret max_known →
  predict_year L model known_years z_score year
  = Ret (prediction_for L model max_known z_score year).
Proof. intros H. unfold predict_year. by rewrite H. Qed.

Lemma predictions_loop model known_years max_known z_score acc missing :
  py_max known_years = Ret max_known →
  for_each (fun acc year =>
              p ← predict_year L model known_years z_score year;
              Ret (acc ++ [p]))
    acc missing
  = Ret (acc ++ (prediction_for L model max_known z_score <$> missing)).
Proof.
  intros Hmax. revert acc.
  induction missing as [|y missing IH]; intros acc; simpl.
  - by rewrite app_nil_r.
  - rewrite (predict_year_eq _ _ _ _ _ Hmax). simpl.
    rewrite IH. by rewrite <- app_assoc.
Qed.

(** A linear fit reports the square of a correlation coefficient. *)
Lemma fit_linear_r_squared ys vs m :
  fit_linear L ys vs = Ret (Some m) →
  0 <= r_squared m ∧ model_type_of m = "linear".
Proof.
  intros H.
  destruct (fit_linear_cases L ys vs) as [(lr & _ & E)|(e & _ & E)];
    rewrite E in H; [|done].
  injection H as <-. simpl. split; [|done].
  destruct (r_value lr) as [n d]. unfold Qle, Qmult. simpl. nia.
Qed.

Lemma fit_trend_linear_r_squared (years : list Q)
    (values : list (option Q)) m :
  fit_trend L years values "linear" = Ret (Some m) →
  0 <= r_squared m ∧ model_type_of m = "linear".
Proof.
  intros H. apply fit_trend_Some_inv in H as (_ & _ & [H|[[? _]|[? _]]]);
    [by eapply fit_linear_r_squared|done|done].
Qed.


(** Every fitted model carries an [np.std] as its residual spread. *)
Lemma fit_trend_residual_std (years : list Q) (values : list (option Q))
    (kind : string) m :
  fit_trend L years values kind = Ret (Some m) →
  ∃ residuals, residual_std m = np_std L residuals.
Proof.
  intros H. apply fit_trend_Some_inv in H as (_ & _ & [H|[[-> H]|[-> H]]]).
  - destruct (fit_linear_cases L (valid_years years values)
                (valid_values values))
      as [(? & _ & E)|(? & _ & E)]; rewrite E in H; simplify_eq.
    simpl. eauto.
  - destruct (fit_exponential_cases L (valid_years years values)
                (valid_values values))
      as [(? & ? & ? & _ & E)|(? & _ & E)]; rewrite E in H; simplify_eq.
    simpl. eauto.
  - destruct (fit_logistic_cases L (valid_years years values)
                (valid_values values))
      as [(? & ? & ? & _ & E)|(? & _ & E)]; rewrite E in H; simplify_eq.
    simpl. eauto.
Qed.

Section Auto.

Variable known_years : list Z.
Variable known_values : list (option Q).

Let years : list Q := inject_Z <$> known_years.

(** The [auto] loop, unrolled over its two candidates. *)
Lemma select_model_auto :
  select_model L known_years known_values "auto"
  = (linear_fit ← fit_trend L years known_values "linear";
     exponential_fit ← fit_trend L years known_values "exponential";
     Ret (match linear_fit, exponential_fit with
          | Some a, Some b =>
            if Qgt_bool (r_squared a) (-1)
            then Some (better_fit a b)
            else if Qgt_bool (r_squared b) (-1) then Some b else None
          | Some a, None =>
            if Qgt_bool (r_squared a) (-1) then Some a else None
          | None, Some b =>
            if Qgt_bool (r_squared b) (-1) then Some b else None
          | None, None => None
          end)).
Proof.
  unfold select_model, auto_candidates. cbn [bool_decide decide_rel].
  rewrite bool_decide_eq_true_2 by done.
  cbn [for_each]. unfold auto_step. fold years.
  unfold mbind, pyresult_bind, fmap, pyresult_fmap, better_fit.
  destruct (fit_trend L years known_values "linear") as [[a|]|e1];
    [| |done].
  - cbn [snd]. destruct (Qgt_bool (r_squared a) (-1));
      destruct (fit_trend L years known_values "exponential")
        as [[b|]|e2]; try done; cbn [snd fst].
    + by destruct (Qgt_bool (r_squared b) (r_squared a)).
    + by destruct (Qgt_bool (r_squared b) (-1)).
  - destruct (fit_trend L years known_values "exponential")
      as [[b|]|e2]; try done; cbn [snd fst].
    by destruct (Qgt_bool (r_squared b) (-1)).
Qed.

(** When [auto] settles on a model, both candidates were fitted and
    the better one is the result. *)
Lemma select_model_auto_Some m :
  select_model L known_years known_values "auto" = Ret (Some m) →
  ∃ a b,
    fit_trend L years known_values "linear" = Ret (Some a)
    ∧ fit_trend L years known_values "exponential" = Ret (Some b)
    ∧ m = better_fit a b.
Proof.
  rewrite select_model_auto. unfold mbind, pyresult_bind.
  destruct (fit_trend L years known_values "linear")
    as [[a|]|e1] eqn:Hl; [| |done].
  - destruct (fit_trend_linear_r_squared _ _ _ Hl) as [Hr _].
    rewrite (Qgt_bool_true (r_squared a) (-1)) by lra.
    destruct (fit_trend L years known_values "exponential")
      as [[b|]|e2] eqn:He; [| |done].
    + intros H. injection H as <-. eauto.
    + exfalso.
      apply fit_trend_Some_inv in Hl as (Hlen & H3 & _).
      apply fit_trend_None_iff in He; [lia|done|].
      unfold known_kinds. rewrite !elem_of_cons. auto.
  - destruct (fit_trend L years known_values "exponential")
      as [[b|]|e2] eqn:He; [|done|done].
    exfalso.
    apply fit_trend_Some_inv in He as (Hlen & H3 & _).
    apply fit_trend_None_iff in Hl; [lia|done|].
    unfold known_kinds. rewrite !elem_of_cons. auto.
Qed.

End Auto.

Lemma better_fit_max a b :
  r_squared a <= r_squared (better_fit a b)
  ∧ r_squared b <= r_squared (better_fit a b)
  ∧ (better_fit a b = a ∨ better_fit a b = b).
Proof.
  unfold better_fit.
  destruct (Qgt_bool (r_squared b) (r_squared a)) eqn:Hc.
  - apply Qgt_bool_spec in Hc. repeat split; [lra|lra|auto].
  - repeat split; [lra| |auto].
    destruct (Qlt_le_dec (r_squared a) (r_squared b)) as [Hlt|Hle]; [|done].
    apply Qgt_bool_true in Hlt. congruence.
Qed.

(** Whatever the mode, the model comes out of one [fit_trend] call on
    the known points. *)
Lemma select_model_Some known_years known_values model_type m :
  select_model L known_years known_values model_type = Ret (Some m) →
  ∃ kind, fit_trend L (inject_Z <$> known_years) known_values kind
          = Ret (Some m).
Proof.
  destruct (decide (model_type = "auto")) as [->|Hm].
  - intros H. apply select_model_auto_Some in H as (a & b & Ha & Hb & ->).
    destruct (better_fit_max a b) as (_ & _ & [-> | ->]); eauto.
  - unfold select_model. rewrite bool_decide_eq_false_2 by done. eauto.
Qed.

Lemma py_max_returns (xs : list Z) :
  xs ≠ [] → ∃ m, py_max xs = Ret m.
Proof. destruct xs; [done|]. simpl. eauto. Qed.

(** The shape of every returned imputation. *)
Lemma impute_missing_years_inv known_years known_values missing_years
    mode confidence_level res :
  impute_missing_years L known_years known_values missing_years
    mode confidence_level = Ret (Some res) →
  ∃ max_known,
    py_max known_years = Ret max_known
    ∧ select_model L known_years known_values mode
      = Ret (Some (model res))
    ∧ predictions res
      = prediction_for L (model res) max_known
          (z_score_of L confidence_level) <$> missing_years
    ∧ model_type res = model_type_of (model res)
    ∧ imputation_r_squared res = r_squared (model res).
Proof.
  rewrite impute_missing_years_unfold. unfold mbind at 1, pyresult_bind at 1.
  destruct (select_model L known_years known_values mode)
    as [[m|]|e] eqn:Hsel; [|done|done].
  destruct (select_model_Some _ _ _ _ Hsel) as (kind & Hfit).
  apply fit_trend_Some_inv in Hfit as (Hlen & H3 & _).
  assert (Hne : known_years ≠ []).
  { intros ->. rewrite length_fmap in Hlen. simpl in Hlen.
    destruct known_values; [|done].
    rewrite valid_values_numbers in H3. simpl in H3. lia. }
  destruct (py_max_returns known_years Hne) as (mk & Hmax).
  rewrite (predictions_loop _ _ _ _ _ _ Hmax). simpl.
  intros H. injection H as <-. simpl. eauto 10.
Qed.

End Imputation.

(** ** The uncertainty factor *)

Section UncertaintyFactor.

Variable max_known : Z.

Lemma years_out_nonneg year : 0 <= inject_Z (years_out max_known year).
Proof.
  unfold years_out. change 0 with (inject_Z 0). rewrite <- Zle_Qle. lia.
Qed.

Lemma uncertainty_factor_of_ge_1 year :
  1 <= uncertainty_factor_of max_known year.
Proof.
  unfold uncertainty_factor_of. pose proof (years_out_nonneg year). lra.
Qed.

Lemma uncertainty_factor_of_known year :
  (year <= max_known)%Z → uncertainty_factor_of max_known year == 1.
Proof.
  intros H. unfold uncertainty_factor_of, years_out.
  rewrite Z.max_l by lia. change (inject_Z 0) with 0. ring.
Qed.

Lemma uncertainty_factor_of_mono year1 year2 :
  (year1 <= year2)%Z →
  uncertainty_factor_of max_known year1
  <= uncertainty_factor_of max_known year2.
Proof.
  intros H. unfold uncertainty_factor_of.
  assert (inject_Z (years_out max_known year1)
          <= inject_Z (years_out max_known year2)).
  { rewrite <- Zle_Qle. unfold years_out. lia. }
  lra.
Qed.

(** Beyond the last known year the factor grows by 0.15 a year. *)
Lemma uncertainty_factor_of_beyond year :
  (max_known <= year)%Z →
  uncertainty_factor_of max_known year
  == 1 + 0.15 * inject_Z (year - max_known).
Proof.
  intros H. unfold uncertainty_factor_of, years_out.
  rewrite Z.max_r by lia. ring.
Qed.

End UncertaintyFactor.

Lemma foldl_max_spec (xs : list Z) (x : Z) :
  (x <= foldl Z.max x xs)%Z
  ∧ Forall (fun y => (y <= foldl Z.max x xs)%Z) xs
  ∧ (foldl Z.max x xs = x ∨ foldl Z.max x xs ∈ xs).
Proof.
  revert x. induction xs as [|y xs IH]; intros x; simpl.
  - split; [lia|]. split; [constructor|auto].
  - destruct (IH (Z.max x y)) as (H1 & H2 & H3).
    split; [lia|]. split; [constructor; [lia|done]|].
    destruct H3 as [H3|H3].
    + rewrite H3. destruct (Z.max_spec x y) as [[_ ->]|[_ ->]];
        [right; left|left]; done.
    + right. by right.
Qed.

(** [py_max] returns the largest element. *)
Lemma py_max_spec (xs : list Z) (m : Z) :
  py_max xs = Ret m → m ∈ xs ∧ Forall (fun y => (y <= m)%Z) xs.
Proof.
  destruct xs as [|x xs]; [done|]. simpl. intros H. injection H as <-.
  destruct (foldl_max_spec xs x) as (H1 & H2 & H3). split.
  - destruct H3 as [-> | H3]; [left|by right].
  - by constructor.
Qed.

Lemma reference_sqrt_nonneg x : 0 <= Reference.sqrt x.
Proof.
  unfold Reference.sqrt. destruct (Qle_bool x 0); [lra|].
  apply Qle_shift_div_l; [reflexivity|].
  rewrite Qmult_0_l. change 0 with (inject_Z 0). rewrite <- Zle_Qle.
  apply Z.sqrt_nonneg.
Qed.

(** ** Claims about [impute_missing_years] *)

(** C6.  With a non-negative quantile (a confidence level between 0 and
    1) and a non-negative square root, every entry of a returned
    imputation satisfies [lower <= predicted <= upper], where the two
    bounds are [predicted] minus and plus the margin [z_score *
    residual_std * uncertainty_factor]; the factor is [1 + 0.15 *
    max(0, year - max(known_years))], at least 1, equal to 1 up to the
    last known year, and non-decreasing in the year. *)
Theorem imputation_bounds
    L known_years known_values missing_years mode confidence_level res :
  (∀ x, 0 <= np_sqrt L x) →
  0 <= z_score_of L confidence_level →
  impute_missing_years L known_years known_values missing_years mode
    confidence_level = Ret (Some res) →
  ∃ max_known,
    py_max known_years = Ret max_known
    ∧ year <$> predictions res = missing_years
    ∧ Forall (fun e =>
        let margin :=
          z_score_of L confidence_level * residual_std (model res)
          * uncertainty_factor e in
        lower e <= predicted e ∧ predicted e <= upper e
        ∧ lower e = predicted e - margin
        ∧ upper e = predicted e + margin
        ∧ predicted e = predict L (model res) (inject_Z (year e))
        ∧ uncertainty_factor e
          = 1 + inject_Z (Z.max 0 (year e - max_known)) * 0.15
        ∧ 1 <= uncertainty_factor e
        ∧ ((year e <= max_known)%Z → uncertainty_factor e == 1)
        ∧ is_imputed e = true)
        (predictions res)
    ∧ ∀ e1 e2, e1 ∈ predictions res → e2 ∈ predictions res →
        (year e1 <= year e2)%Z →
        uncertainty_factor e1 <= uncertainty_factor e2.
Proof.
  intros Hsqrt Hz Himp.
  destruct (impute_missing_years_inv L _ _ _ _ _ _ Himp)
    as (mk & Hmax & Hsel & Hpred & _).
  destruct (select_model_Some L _ _ _ _ Hsel) as (kind & Hfit).
  destruct (fit_trend_residual_std L _ _ _ _ Hfit) as (rs & Hrs).
  assert (Hstd : 0 <= residual_std (model res)).
  { rewrite Hrs. apply Hsqrt. }
  exists mk. split; [exact Hmax|]. rewrite Hpred. split.
  { rewrite <- list_fmap_compose. clear. induction missing_years; [done|].
    simpl. by f_equal. }
  split.
  - apply Forall_fmap, Forall_forall. intros y _. cbv zeta. simpl.
    pose proof (uncertainty_factor_of_ge_1 mk y) as Hu.
    assert (Hzs : 0 <= z_score_of L confidence_level
                       * residual_std (model res))
      by (apply Qmult_le_0_compat; assumption).
    assert (Hm : 0 <= z_score_of L confidence_level * residual_std (model res)
                      * uncertainty_factor_of mk y)
      by (apply Qmult_le_0_compat; [assumption|lra]).
    repeat split; try lra.
    by apply uncertainty_factor_of_known.
  - intros e1 e2 H1 H2 Hle.
    apply list_elem_of_fmap in H1 as (y1 & -> & _).
    apply list_elem_of_fmap in H2 as (y2 & -> & _).
    simpl in *. by apply uncertainty_factor_of_mono.
Qed.

Lemma imputation_bounds_witness :
  (∀ x, 0 <= np_sqrt (Reference.lib Reference.SeedIsOptimal) x)
  ∧ 0 <= z_score_of (Reference.lib Reference.SeedIsOptimal) 0.95
  ∧ ∃ res,
      impute_missing_years (Reference.lib Reference.SeedIsOptimal)
        Reference.known_years Reference.known_values Reference.missing_years
        "linear" 0.95 = Ret (Some res)
      ∧ year <$> predictions res = Reference.missing_years
      ∧ Forall (fun e => lower e <= predicted e ∧ predicted e <= upper e
                         ∧ 1 <= uncertainty_factor e)
          (predictions res).
Proof.
  split; [exact reference_sqrt_nonneg|]. split; [by vm_compute|].
  eexists. split; [by vm_compute|].
  edestruct (imputation_bounds (Reference.lib Reference.SeedIsOptimal)
               Reference.known_years Reference.known_values
               Reference.missing_years "linear" 0.95)
    as (mk & _ & Hyears & Hall & _);
    [exact reference_sqrt_nonneg | by vm_compute | by vm_compute |].
  split; [exact Hyears|].
  eapply Forall_impl; [exact Hall|].
  intros e (H1 & H2 & _ & _ & _ & _ & H3 & _). auto.
Defined.

(** ** Model selection *)

Section Selection.

Variable L : NumLib.
Variable cf :
  (Q → list Q → Q) → list Q → list Q → list Q → Z → pyresult (list Q).

(** [cf] answers the exponential branch as the optimiser of [L] does;
    on any other call it may differ. *)
Hypothesis same_on_exponential :
  ∀ ys vs,
    cf (exp_func L (hd 0 ys)) ys vs (exponential_seed vs) 5000%Z
    = curve_fit L (exp_func L (hd 0 ys)) ys vs (exponential_seed vs) 5000.





End Selection.




(** * Further properties of the trend imputation engine *)

Section TrendExtras.

Variable L : NumLib.

(** Cleaning is idempotent: fitting the cleaned data is fitting the
    data. *)
Lemma fit_trend_clean (years : list Q) (values : list (option Q))
    (kind : string) :
  length years = length values →
  fit_trend L (valid_years years values) (Some <$> valid_values values) kind
  = fit_trend L years values kind.
Proof.
  intros Hlen. unfold fit_trend.
  pose proof (valid_years_length years values Hlen) as Hc.
  rewrite (fit_trend_depth_unfold L 1 years values) by done.
  rewrite (fit_trend_depth_unfold L 1 (valid_years years values))
    by (by rewrite length_fmap).
  cbv zeta. by rewrite valid_years_clean, valid_values_clean.
Qed.

Lemma select_model_explicit known_years known_values mode :
  mode ≠ "auto" →
  select_model L known_years known_values mode
  = fit_trend L (inject_Z <$> known_years) known_values mode.
Proof.
  intros H. unfold select_model. by rewrite bool_decide_eq_false_2.
Qed.

Lemma select_model_mismatch known_years known_values mode :
  length known_years ≠ length known_values →
  select_model L known_years known_values mode = Raise IndexError.
Proof.
  intros Hlen.
  assert (Hfit : ∀ kind, fit_trend L (inject_Z <$> known_years)
                           known_values kind = Raise IndexError).
  { intros kind. unfold fit_trend. apply fit_trend_depth_mismatch.
    by rewrite length_fmap. }
  destruct (decide (mode = "auto")) as [->|Hm].
  - rewrite select_model_auto. rewrite (Hfit "linear"). reflexivity.
  - rewrite select_model_explicit by done. apply Hfit.
Qed.

Lemma select_model_short known_years known_values mode :
  length known_years = length known_values →
  (length (valid_values known_values) < 3)%nat →
  select_model L known_years known_values mode = Ret None.
Proof.
  intros Hlen Hshort.
  assert (Hfit : ∀ kind, fit_trend L (inject_Z <$> known_years)
                           known_values kind = Ret None).
  { intros kind. apply fit_trend_short; [by rewrite length_fmap|done]. }
  destruct (decide (mode = "auto")) as [->|Hm].
  - rewrite select_model_auto.
    rewrite (Hfit "linear"), (Hfit "exponential"). reflexivity.
  - rewrite select_model_explicit by done. apply Hfit.
Qed.

(** If both candidates of the [auto] loop are the same fit, that fit
    is what the loop settles on. *)
Lemma select_model_auto_same known_years known_values :
  fit_trend L (inject_Z <$> known_years) known_values "exponential"
  = fit_trend L (inject_Z <$> known_years) known_values "linear" →
  select_model L known_years known_values "auto"
  = fit_trend L (inject_Z <$> known_years) known_values "linear".
Proof.
  intros Hsame. rewrite select_model_auto, Hsame.
  destruct (fit_trend L (inject_Z <$> known_years) known_values "linear")
    as [[a|]|e] eqn:Hl; [|done|done].
  destruct (fit_trend_linear_r_squared L _ _ _ Hl) as [Hr _].
  cbn. rewrite (Qgt_bool_true (r_squared a) (-1)) by lra.
  unfold better_fit. by rewrite (Qgt_bool_false (r_squared a)) by lra.
Qed.

Lemma impute_missing_years_select known_years known_values missing_years
    mode1 mode2 confidence_level :
  select_model L known_years known_values mode1
  = select_model L known_years known_values mode2 →
  impute_missing_years L known_years known_values missing_years mode1
    confidence_level
  = impute_missing_years L known_years known_values missing_years mode2
      confidence_level.
Proof. intros H. rewrite !impute_missing_years_unfold. by rewrite H. Qed.

End TrendExtras.

(** X1.  Entries whose value is missing, and the years paired with them,
    have no influence on a fit: [fit_trend] on the data is [fit_trend]
    on the pairs that carry a number, kept in order. *)
Theorem fit_trend_ignores_missing
    L (years : list Q) (values : list (option Q)) (kind : string) :
  length years = length values →
  fit_trend L years values kind
  = fit_trend L (valid_years years values) (Some <$> valid_values values) kind
  ∧ zip (valid_years years values) (valid_values values)
    = omap (fun yv => match snd yv with
                      | Some v => Some (fst yv, v)
                      | None => None
                      end) (zip years values).
Proof.
  intros Hlen. split; [by rewrite fit_trend_clean|by apply valid_pairs_zip].
Qed.

Lemma fit_trend_ignores_missing_witness :
  length Reference.years_gap = length Reference.values_gap
  ∧ fit_trend (Reference.lib Reference.SeedIsOptimal)
      Reference.years_gap Reference.values_gap "exponential"
    = fit_trend (Reference.lib Reference.SeedIsOptimal)
        Samples.years_kept Samples.values_kept "exponential".
Proof.
  split; [reflexivity|].
  apply (fit_trend_ignores_missing (Reference.lib Reference.SeedIsOptimal)
           Reference.years_gap Reference.values_gap "exponential").
  reflexivity.
Defined.

(** X2.  Sequences of different lengths are refused: [fit_trend] raises
    [IndexError] for every model kind, and so does
    [impute_missing_years] in every mode, [auto] included. *)
Theorem mismatched_lengths_raise
    L known_years known_values missing_years mode confidence_level :
  length known_years ≠ length known_values →
  fit_trend L (inject_Z <$> known_years) known_values mode = Raise IndexError
  ∧ impute_missing_years L known_years known_values missing_years mode
      confidence_level = Raise IndexError.
Proof.
  intros Hlen. split.
  - unfold fit_trend. apply fit_trend_depth_mismatch.
    by rewrite length_fmap.
  - rewrite impute_missing_years_unfold.
    by rewrite select_model_mismatch.
Qed.

Lemma mismatched_lengths_raise_witness :
  length Samples.years_long ≠ length Reference.values3
  ∧ impute_missing_years (Reference.lib Reference.SeedIsOptimal)
      Samples.years_long Reference.values3 [2023]%Z "auto" 0.95
    = Raise IndexError.
Proof.
  split; [done|].
  apply (mismatched_lengths_raise (Reference.lib Reference.SeedIsOptimal)
           Samples.years_long Reference.values3 [2023]%Z "auto" 0.95).
  done.
Defined.

(** X3.  With fewer than three valid pairs [impute_missing_years]
    returns [None] in every mode, whatever years are asked for: it
    neither raises nor consults the optimiser or the quantile. *)
Theorem impute_insufficient_data
    L known_years known_values missing_years mode confidence_level :
  length known_years = length known_values →
  (length (valid_values known_values) < 3)%nat →
  impute_missing_years L known_years known_values missing_years mode
    confidence_level = Ret None.
Proof.
  intros Hlen Hshort. rewrite impute_missing_years_unfold.
  by rewrite select_model_short.
Qed.

Lemma impute_insufficient_data_witness :
  length Samples.years_short = length Samples.values_short
  ∧ (length (valid_values Samples.values_short) < 3)%nat
  ∧ impute_missing_years (Reference.lib Reference.BudgetExhausted)
      Samples.years_short Samples.values_short [2023]%Z "auto" 0.95
    = Ret None.
Proof.
  split; [reflexivity|]. split; [simpl; lia|].
  apply (impute_insufficient_data (Reference.lib Reference.BudgetExhausted)
           Samples.years_short Samples.values_short [2023]%Z "auto" 0.95);
    [reflexivity | simpl; lia].
Defined.

(** X4.  When the optimiser fails with a caught class, asking for the
    exponential or the logistic model gives exactly the imputation that
    asking for the linear model gives; in particular the reported
    [model_type] is ['linear'], not the kind requested. *)
Theorem impute_fallback_is_linear
    L known_years known_values missing_years mode confidence_level e :
  length known_years = length known_values →
  (3 <= length (valid_values known_values))%nat →
  mode = "exponential" ∨ mode = "logistic" →
  optimizer_call L mode (valid_years (inject_Z <$> known_years) known_values)
    (valid_values known_values) = Raise e →
  e ∈ caught →
  impute_missing_years L known_years known_values missing_years mode
    confidence_level
  = impute_missing_years L known_years known_values missing_years "linear"
      confidence_level
  ∧ ∀ res,
      impute_missing_years L known_years known_values missing_years mode
        confidence_level = Ret (Some res) →
      model_type res = "linear".
Proof.
  intros Hlen H3 Hmode Hcall He.
  assert (Hlen' : length (inject_Z <$> known_years) = length known_values)
    by (by rewrite length_fmap).
  assert (Hfit : fit_trend L (inject_Z <$> known_years) known_values mode
                 = fit_trend L (inject_Z <$> known_years) known_values
                     "linear").
  { rewrite <- (fit_trend_clean L _ _ "linear") by done.
    destruct Hmode as [-> | ->]; unfold optimizer_call in Hcall;
      cbn in Hcall.
    - by apply fit_trend_exponential_fallback with e.
    - by apply fit_trend_logistic_fallback with e. }
  assert (Himp : impute_missing_years L known_years known_values
                   missing_years mode confidence_level
                 = impute_missing_years L known_years known_values
                     missing_years "linear" confidence_level).
  { apply impute_missing_years_select.
    rewrite !select_model_explicit; [done|done|].
    destruct Hmode as [-> | ->]; done. }
  split; [exact Himp|].
  intros res Hres. rewrite Himp in Hres.
  destruct (impute_missing_years_inv L _ _ _ _ _ _ Hres)
    as (mk & _ & Hsel & _ & Hty & _).
  rewrite select_model_explicit in Hsel by done.
  rewrite Hty. by apply (fit_trend_linear_r_squared L _ _ _ Hsel).
Qed.

Lemma impute_fallback_is_linear_witness :
  length Reference.known_years = length Reference.known_values
  ∧ (3 <= length (valid_values Reference.known_values))%nat
  ∧ optimizer_call (Reference.lib Reference.BudgetExhausted) "logistic"
      (valid_years (inject_Z <$> Reference.known_years) Reference.known_values)
      (valid_values Reference.known_values) = Raise RuntimeError
  ∧ RuntimeError ∈ caught
  ∧ impute_missing_years (Reference.lib Reference.BudgetExhausted)
      Reference.known_years Reference.known_values Reference.missing_years
      "logistic" 0.95
    = impute_missing_years (Reference.lib Reference.BudgetExhausted)
        Reference.known_years Reference.known_values Reference.missing_years
        "linear" 0.95.
Proof.
  assert (Hc : RuntimeError ∈ caught) by (unfold caught; left).
  split; [reflexivity|]. split; [simpl; lia|]. split; [reflexivity|].
  split; [exact Hc|].
  apply (impute_fallback_is_linear (Reference.lib Reference.BudgetExhausted)
           Reference.known_years Reference.known_values
           Reference.missing_years "logistic" 0.95 RuntimeError);
    [reflexivity | simpl; lia | by right | reflexivity | exact Hc].
Defined.

(** X5.  When the exponential optimiser fails with a caught class,
    [auto] mode compares the linear fit with itself and returns exactly
    what the explicit linear mode returns. *)
Theorem impute_auto_degenerates_to_linear
    L known_years known_values missing_years confidence_level e :
  length known_years = length known_values →
  (3 <= length (valid_values known_values))%nat →
  optimizer_call L "exponential"
    (valid_years (inject_Z <$> known_years) known_values)
    (valid_values known_values) = Raise e →
  e ∈ caught →
  impute_missing_years L known_years known_values missing_years "auto"
    confidence_level
  = impute_missing_years L known_years known_values missing_years "linear"
      confidence_level.
Proof.
  intros Hlen H3 Hcall He.
  assert (Hlen' : length (inject_Z <$> known_years) = length known_values)
    by (by rewrite length_fmap).
  apply impute_missing_years_select.
  rewrite (select_model_explicit L _ _ "linear") by done.
  apply select_model_auto_same.
  rewrite <- (fit_trend_clean L _ _ "linear") by done.
  unfold optimizer_call in Hcall. cbn in Hcall.
  by apply fit_trend_exponential_fallback with e.
Qed.

Lemma impute_auto_degenerates_to_linear_witness :
  length Reference.known_years = length Reference.known_values
  ∧ (3 <= length (valid_values Reference.known_values))%nat
  ∧ optimizer_call (Reference.lib Reference.BudgetExhausted) "exponential"
      (valid_years (inject_Z <$> Reference.known_years) Reference.known_values)
      (valid_values Reference.known_values) = Raise RuntimeError
  ∧ RuntimeError ∈ caught
  ∧ impute_missing_years (Reference.lib Reference.BudgetExhausted)
      Reference.known_years Reference.known_values Reference.missing_years
      "auto" 0.95
    = impute_missing_years (Reference.lib Reference.BudgetExhausted)
        Reference.known_years Reference.known_values Reference.missing_years
        "linear" 0.95.
Proof.
  assert (Hc : RuntimeError ∈ caught) by (unfold caught; left).
  split; [reflexivity|]. split; [simpl; lia|]. split; [reflexivity|].
  split; [exact Hc|].
  apply (impute_auto_degenerates_to_linear
           (Reference.lib Reference.BudgetExhausted)
           Reference.known_years Reference.known_values
           Reference.missing_years 0.95 RuntimeError);
    [reflexivity | simpl; lia | reflexivity | exact Hc].
Defined.

(** X6.  The band of every prediction is centred on the predicted
    value, its width is twice the margin, and for a non-negative
    quantile and square root the band never narrows from one requested
    year to a later one. *)
Theorem imputation_band_widens
    L known_years known_values missing_years mode confidence_level res :
  (∀ x, 0 <= np_sqrt L x) →
  0 <= z_score_of L confidence_level →
  impute_missing_years L known_years known_values missing_years mode
    confidence_level = Ret (Some res) →
  Forall (fun e =>
            upper e - predicted e == predicted e - lower e
            ∧ upper e - lower e
              == 2 * (z_score_of L confidence_level
                      * residual_std (model res) * uncertainty_factor e))
    (predictions res)
  ∧ ∀ e1 e2, e1 ∈ predictions res → e2 ∈ predictions res →
      (year e1 <= year e2)%Z →
      upper e1 - lower e1 <= upper e2 - lower e2.
Proof.
  intros Hsqrt Hz Himp.
  destruct (impute_missing_years_inv L _ _ _ _ _ _ Himp)
    as (mk & Hmax & Hsel & Hpred & _).
  destruct (select_model_Some L _ _ _ _ Hsel) as (kind & Hfit).
  destruct (fit_trend_residual_std L _ _ _ _ Hfit) as (rs & Hrs).
  assert (Hstd : 0 <= residual_std (model res)).
  { rewrite Hrs. apply Hsqrt. }
  assert (Hzs : 0 <= z_score_of L confidence_level * residual_std (model res))
    by (by apply Qmult_le_0_compat).
  rewrite Hpred. split.
  - apply Forall_fmap, Forall_forall. intros y _. simpl. split; ring.
  - intros e1 e2 H1 H2 Hle.
    apply list_elem_of_fmap in H1 as (y1 & -> & _).
    apply list_elem_of_fmap in H2 as (y2 & -> & _).
    simpl in *.
    pose proof (uncertainty_factor_of_mono mk y1 y2 Hle) as Hu.
    set (u1 := uncertainty_factor_of mk y1) in *.
    set (u2 := uncertainty_factor_of mk y2) in *.
    set (m := z_score_of L confidence_level * residual_std (model res)) in *.
    assert (m * u1 <= m * u2) by nra. lra.
Qed.

Lemma imputation_band_widens_witness :
  (∀ x, 0 <= np_sqrt (Reference.lib Reference.SeedIsOptimal) x)
  ∧ 0 <= z_score_of (Reference.lib Reference.SeedIsOptimal) 0.95
  ∧ ∃ res,
      impute_missing_years (Reference.lib Reference.SeedIsOptimal)
        Reference.known_years Reference.known_values Reference.missing_years
        "linear" 0.95 = Ret (Some res)
      ∧ Forall (fun e => upper e - predicted e == predicted e - lower e)
          (predictions res).
Proof.
  split; [exact reference_sqrt_nonneg|]. split; [by vm_compute|].
  eexists. split; [by vm_compute|].
  edestruct (imputation_band_widens (Reference.lib Reference.SeedIsOptimal)
               Reference.known_years Reference.known_values
               Reference.missing_years "linear" 0.95)
    as (Hall & _);
    [exact reference_sqrt_nonneg | by vm_compute | by vm_compute |].
  eapply Forall_impl; [exact Hall|]. intros e (H1 & _). exact H1.
Defined.

(** * Further properties of the posterior reconciliation engine *)

Lemma add_contested_metric_found self metric_name om os im isd bias :
  contested_metrics
    (add_contested_metric self metric_name om os im isd bias) !! metric_name
  = Some {| official := {| mean := om; std := os |};
            independent := {| mean := im; std := isd |};
            prior_bias := bias |}.
Proof. unfold add_contested_metric. simpl. apply lookup_insert_eq. Qed.

Lemma add_contested_metric_other self metric_name om os im isd bias other :
  other ≠ metric_name →
  contested_metrics
    (add_contested_metric self metric_name om os im isd bias) !! other
  = contested_metrics self !! other.
Proof.
  intros H. unfold add_contested_metric. simpl. by apply lookup_insert_ne.
Qed.

(** X7.  A name the engine does not hold gives [None], for every sample
    count, without drawing from the generator; a fresh engine holds no
    name. *)
Theorem compute_posterior_not_found L self metric_name n_samples rs :
  contested_metrics self !! metric_name = None →
  compute_posterior L self metric_name n_samples rs = (Ret None, rs)
  ∧ compute_posterior L new_engine metric_name n_samples rs = (Ret None, rs).
Proof.
  intros H. split; [by apply compute_posterior_unknown|].
  apply compute_posterior_unknown. apply lookup_empty.
Qed.

Lemma compute_posterior_not_found_witness :
  contested_metrics Reference.catalog !! "Border Apprehensions" = None
  ∧ compute_posterior (Reference.lib Reference.SeedIsOptimal)
      Reference.catalog "Border Apprehensions" 10000 Reference.random_state
    = (Ret None, Reference.random_state).
Proof.
  split; [by vm_compute|].
  apply (compute_posterior_not_found (Reference.lib Reference.SeedIsOptimal)
           Reference.catalog "Border Apprehensions" 10000
           Reference.random_state).
  by vm_compute.
Defined.

(** X8.  [add_contested_metric] registers the metric under its name,
    replacing an earlier one of that name and leaving every other name
    as it was: posteriors of other names are unchanged, and a posterior
    of this name echoes the two estimates as given and carries the
    weights of the given bias. *)
Theorem add_contested_metric_effect
    L self metric_name om os im isd bias n_samples rs :
  (∀ om' os' im' isd' bias',
     add_contested_metric
       (add_contested_metric self metric_name om' os' im' isd' bias')
       metric_name om os im isd bias
     = add_contested_metric self metric_name om os im isd bias)
  ∧ (∀ other,
       other ≠ metric_name →
       compute_posterior L
         (add_contested_metric self metric_name om os im isd bias)
         other n_samples rs
       = compute_posterior L self other n_samples rs)
  ∧ (∀ p rs',
       compute_posterior L
         (add_contested_metric self metric_name om os im isd bias)
         metric_name n_samples rs = (Ret (Some p), rs') →
       posterior_official p = {| mean := om; std := os |}
       ∧ posterior_independent p = {| mean := im; std := isd |}
       ∧ weights p = mixture_weights bias).
Proof.
  split; [|split].
  - intros. unfold add_contested_metric. simpl. f_equal.
    apply insert_insert_eq.
  - intros other Hne. unfold compute_posterior.
    by rewrite add_contested_metric_other.
  - intros p rs' Hret.
    destruct (compute_posterior_inv L _ metric_name _
                (add_contested_metric_found self metric_name om os im isd bias)
                n_samples rs p rs' Hret)
      as (off & ind & rs1 & rs2 & p5 & p25 & p50 & p75 & p95
          & _ & _ & _ & _ & Hp).
    rewrite Hp. simpl. auto.
Qed.

Lemma add_contested_metric_effect_witness :
  ∃ p rs',
    compute_posterior (Reference.lib Reference.SeedIsOptimal)
      (add_contested_metric Reference.catalog "Annual Removals"
         190000 8000 250000 20000 "official")
      "Annual Removals" 10 Reference.random_state
    = (Ret (Some p), rs')
    ∧ posterior_official p = {| mean := 190000; std := 8000 |}
    ∧ weights p = (0.7, 0.3).
Proof.
  eexists _, _. split; [by vm_compute|].
  edestruct (add_contested_metric_effect
               (Reference.lib Reference.SeedIsOptimal) Reference.catalog
               "Annual Removals" 190000 8000 250000 20000 "official" 10
               Reference.random_state) as (_ & _ & Hecho).
  edestruct Hecho as (H1 & _ & H3); [by vm_compute|].
  split; [exact H1|exact H3].
Defined.

(** X9.  The two weights of every posterior are positive and add up to
    one; a bias label that is neither ['skeptical'] nor ['official'],
    ['neutral'] or any other string, gives the even mixture. *)
Theorem posterior_weights_sum
    L self metric_name metric n_samples rs p rs' :
  contested_metrics self !! metric_name = Some metric →
  compute_posterior L self metric_name n_samples rs = (Ret (Some p), rs') →
  fst (weights p) + snd (weights p) == 1
  ∧ 0 < fst (weights p) ∧ 0 < snd (weights p)
  ∧ (prior_bias metric ≠ "skeptical" → prior_bias metric ≠ "official" →
     weights p = (0.5, 0.5)).
Proof.
  intros Hfound Hret.
  destruct (compute_posterior_inv L self metric_name metric Hfound
              n_samples rs p rs' Hret)
    as (off & ind & rs1 & rs2 & p5 & p25 & p50 & p75 & p95
        & _ & _ & _ & _ & Hp).
  assert (Hw : weights p = mixture_weights (prior_bias metric))
    by (rewrite Hp; reflexivity).
  rewrite Hw. split; [|split; [|split]].
  - destruct (mixture_weights_cases (prior_bias metric)) as [-> | [-> | ->]];
      reflexivity.
  - destruct (mixture_weights_cases (prior_bias metric)) as [-> | [-> | ->]];
      reflexivity.
  - destruct (mixture_weights_cases (prior_bias metric)) as [-> | [-> | ->]];
      reflexivity.
  - intros H1 H2. unfold mixture_weights.
    by rewrite !bool_decide_eq_false_2.
Qed.

Lemma posterior_weights_sum_witness :
  ∃ p rs',
    contested_metrics
      (add_contested_metric new_engine "Border Apprehensions"
         100 10 140 30 "balanced") !! "Border Apprehensions"
    = Some {| official := {| mean := 100; std := 10 |};
              independent := {| mean := 140; std := 30 |};
              prior_bias := "balanced" |}
    ∧ compute_posterior (Reference.lib Reference.SeedIsOptimal)
        (add_contested_metric new_engine "Border Apprehensions"
           100 10 140 30 "balanced")
        "Border Apprehensions" 10 Reference.random_state
      = (Ret (Some p), rs')
    ∧ weights p = (0.5, 0.5).
Proof.
  eexists _, _. split; [by vm_compute|]. split; [by vm_compute|].
  eapply (posterior_weights_sum (Reference.lib Reference.SeedIsOptimal)
            (add_contested_metric new_engine "Border Apprehensions"
               100 10 140 30 "balanced")
            "Border Apprehensions" _ 10 Reference.random_state);
    [by vm_compute | by vm_compute | done | done].
Defined.

(** ** Percentiles lie within the data *)

Lemma insert_sorted_elem (x y : Q) (l : list Q) :
  x ∈ insert_sorted y l → x = y ∨ x ∈ l.
Proof.
  induction l as [|z l IH]; simpl.
  - rewrite list_elem_of_singleton. auto.
  - destruct (Qle_bool y z); rewrite !elem_of_cons; [tauto|].
    intros [H|H]; [tauto|]. destruct (IH H); tauto.
Qed.

Lemma np_sort_elem (x : Q) (a : list Q) : x ∈ np_sort a → x ∈ a.
Proof.
  induction a as [|y a IH]; simpl; [done|].
  intros H. rewrite elem_of_cons.
  apply insert_sorted_elem in H as [H|H]; auto.
Qed.

Lemma at_index_elem (s : list Q) (i : Z) :
  (0 <= i)%Z → (i < Z.of_nat (length s))%Z → at_index s i ∈ s.
Proof.
  intros H0 Hi. unfold at_index. apply list_elem_of_In, nth_In. lia.
Qed.

Lemma np_percentile_within (a : list Q) (q p : Q) :
  0 <= q → q <= 100 → np_percentile a q = Ret p →
  ∃ x y, x ∈ a ∧ y ∈ a ∧ x <= p ∧ p <= y.
Proof.
  intros H0 H100 Hp.
  destruct (decide (a = [])) as [->|Ha]; [done|].
  rewrite np_percentile_interpolate in Hp by done. injection Hp as <-.
  set (s := np_sort a) in *.
  assert (Hlen : (1 <= Z.of_nat (length s))%Z).
  { subst s. rewrite np_sort_length. destruct a; [done|]. simpl. lia. }
  set (m := (Z.of_nat (length s) - 1)%Z) in *.
  assert (Hm : 0 <= inject_Z m).
  { change 0 with (inject_Z 0). rewrite <- Zle_Qle. lia. }
  assert (Hx0 : 0 <= q / 100)
    by (unfold Qdiv; change (/ 100) with (1 # 100); lra).
  assert (Hx1 : q / 100 <= 1)
    by (unfold Qdiv; change (/ 100) with (1 # 100); lra).
  generalize dependent (q / 100). intros x Hx0 Hx1.
  assert (Hh0 : 0 <= inject_Z m * x) by nra.
  assert (Hh1 : inject_Z m * x <= inject_Z m) by nra.
  set (h := inject_Z m * x) in *.
  destruct (interpolate_bounds s (np_sort_sorted a) h Hh0 Hh1) as [Hlo Hhi].
  destruct (floor_in_range s h Hh0 Hh1) as [Hf0 Hf1].
  subst m s.
  exists (at_index (np_sort a) (Qfloor h)),
         (at_index (np_sort a)
            (Z.min (Qfloor h + 1) (Z.of_nat (length (np_sort a)) - 1))).
  split; [apply np_sort_elem, at_index_elem; lia|].
  split; [apply np_sort_elem, at_index_elem; lia|].
  split; assumption.
Qed.

(** X10.  The median and both bounds of the 90% interval of a posterior
    lie between two of its samples: no reported bound is outside the
    range of the data it summarises. *)
Theorem credible_bounds_within_samples
    L self metric_name n_samples rs p rs' :
  compute_posterior L self metric_name n_samples rs = (Ret (Some p), rs') →
  (∃ x y, x ∈ samples p ∧ y ∈ samples p
          ∧ x <= fst (ci_90 p) ∧ fst (ci_90 p) <= y)
  ∧ (∃ x y, x ∈ samples p ∧ y ∈ samples p
            ∧ x <= snd (ci_90 p) ∧ snd (ci_90 p) <= y)
  ∧ (∃ x y, x ∈ samples p ∧ y ∈ samples p
            ∧ x <= median p ∧ median p <= y).
Proof.
  intros Hret.
  destruct (contested_metrics self !! metric_name) as [metric|] eqn:Hfound.
  2: { rewrite compute_posterior_unknown in Hret by done. by simplify_eq. }
  destruct (compute_posterior_inv L self metric_name metric Hfound
              n_samples rs p rs' Hret)
    as (off & ind & rs1 & rs2 & p5 & p25 & p50 & p75 & p95
        & _ & _ & _ & Hps & Hp).
  apply np_percentiles_five_inv in Hps as (H5 & H25 & H50 & H75 & H95).
  rewrite Hp. cbn [ci_90 median fst snd samples].
  split; [|split].
  - apply (np_percentile_within (samples p) 5); [lra|lra|done].
  - apply (np_percentile_within (samples p) 95); [lra|lra|done].
  - apply (np_percentile_within (samples p) 50); [lra|lra|done].
Qed.

Lemma credible_bounds_within_samples_witness :
  ∃ p rs' x y,
    compute_posterior (Reference.lib Reference.SeedIsOptimal) Reference.catalog
      "Annual Removals" 10 Reference.random_state
    = (Ret (Some p), rs')
    ∧ x ∈ samples p ∧ y ∈ samples p
    ∧ x <= fst (ci_90 p) ∧ fst (ci_90 p) <= y.
Proof.
  eexists _, _.
  edestruct (credible_bounds_within_samples
               (Reference.lib Reference.SeedIsOptimal) Reference.catalog
               "Annual Removals" 10 Reference.random_state)
    as ((x & y & Hx & Hy & H1 & H2) & _); [by vm_compute|].
  exists x, y. split; [by vm_compute|]. auto.
Defined.

(** ** The shuffle *)






(** * The drivers *)

(** ** Gaps of a reported series *)

Lemma foldl_min_spec (xs : list Z) (x : Z) :
  (foldl Z.min x xs <= x)%Z
  ∧ Forall (fun y => (foldl Z.min x xs <= y)%Z) xs
  ∧ (foldl Z.min x xs = x ∨ foldl Z.min x xs ∈ xs).
Proof.
  revert x. induction xs as [|y xs IH]; intros x; simpl.
  - split; [lia|]. split; [constructor|auto].
  - destruct (IH (Z.min x y)) as (H1 & H2 & H3).
    split; [lia|]. split; [constructor; [lia|done]|].
    destruct H3 as [H3|H3].
    + rewrite H3. destruct (Z.min_spec x y) as [[_ ->]|[_ ->]];
        [left|right; left]; done.
    + right. by right.
Qed.

(** [py_min] returns the smallest element. *)
Lemma py_min_spec (xs : list Z) (m : Z) :
  py_min xs = Ret m → m ∈ xs ∧ Forall (fun y => (m <= y)%Z) xs.
Proof.
  destruct xs as [|x xs]; [done|]. simpl. intros H. injection H as <-.
  destruct (foldl_min_spec xs x) as (H1 & H2 & H3). split.
  - destruct H3 as [-> | H3]; [left|by right].
  - by constructor.
Qed.

Lemma py_min_returns (xs : list Z) : xs ≠ [] → ∃ m, py_min xs = Ret m.
Proof. destruct xs; [done|]. simpl. eauto. Qed.

Lemma elem_of_py_range (a b y : Z) : y ∈ py_range a b ↔ (a <= y < b)%Z.
Proof.
  unfold py_range. rewrite list_elem_of_fmap. split.
  - intros (i & -> & Hi). apply elem_of_seq in Hi. lia.
  - intros H. exists (Z.to_nat (y - a)). split; [lia|].
    apply elem_of_seq. lia.
Qed.

Lemma py_range_snoc (a b : Z) :
  (a <= b)%Z → py_range a (b + 1) = py_range a b ++ [b].
Proof.
  intros H. unfold py_range.
  replace (Z.to_nat (b + 1 - a)) with (S (Z.to_nat (b - a))) by lia.
  rewrite seq_S, fmap_app. simpl. do 2 f_equal. lia.
Qed.

Lemma fmap_seq_sorted (a : Z) (s n : nat) :
  StronglySorted Z.lt ((fun i => (a + Z.of_nat i)%Z) <$> seq s n).
Proof.
  revert s. induction n as [|n IH]; intros s; simpl; constructor.
  - apply IH.
  - apply Forall_fmap, Forall_forall. intros i Hi.
    apply elem_of_seq in Hi. simpl. lia.
Qed.

Lemma py_range_sorted (a b : Z) : StronglySorted Z.lt (py_range a b).
Proof. apply fmap_seq_sorted. Qed.

Lemma filter_sorted (P : Z → Prop) `{∀ y, Decision (P y)} (l : list Z) :
  StronglySorted Z.lt l → StronglySorted Z.lt (filter P l).
Proof.
  induction 1 as [|x l Hs IH Hall]; [constructor|].
  rewrite filter_cons. destruct (decide (P x)); [|done].
  constructor; [done|].
  apply Forall_forall. intros y Hy. apply list_elem_of_filter in Hy as [_ Hy].
  rewrite Forall_forall in Hall. by apply Hall.
Qed.

(** What [gap_years] returns for a series with at least one row. *)
Lemma gap_years_inv (years : list Z) :
  years ≠ [] →
  ∃ lo hi missing,
    py_min years = Ret lo ∧ py_max years = Ret hi
    ∧ gap_years years = Ret missing
    ∧ missing = filter (fun y => y ∉ years) (py_range lo (hi + 1))
                ++ [(hi + 1)%Z]
    ∧ (lo <= hi)%Z.
Proof.
  intros Hne.
  destruct (py_min_returns years Hne) as (lo & Hlo).
  destruct (py_max_returns years Hne) as (hi & Hhi).
  destruct (py_min_spec years lo Hlo) as (Hlo_in & Hlo_le).
  destruct (py_max_spec years hi Hhi) as (Hhi_in & Hhi_le).
  assert (Hle : (lo <= hi)%Z).
  { rewrite Forall_forall in Hhi_le. by apply Hhi_le. }
  exists lo, hi. eexists. split; [exact Hlo|]. split; [exact Hhi|].
  split; [unfold gap_years; rewrite Hlo, Hhi; reflexivity|].
  split; [|exact Hle].
  replace (hi + 2)%Z with (hi + 1 + 1)%Z by lia.
  rewrite py_range_snoc by lia. rewrite filter_app. f_equal.
  rewrite filter_cons, filter_nil.
  destruct (decide ((hi + 1)%Z ∉ years)) as [|Hin]; [done|].
  exfalso. apply Hin. intros Hin'.
  rewrite Forall_forall in Hhi_le. specialize (Hhi_le _ Hin'). lia.
Qed.

(** X12.  For a series with at least one row the years asked for are
    those between the first and the last reported year that have no
    row, followed by the year after the last one: the request is never
    empty, it is strictly increasing, and a year that has a row is never
    part of it, even when that row holds no value. *)
Theorem gap_years_spec (years : list Z) :
  years ≠ [] →
  ∃ lo hi missing,
    py_min years = Ret lo ∧ py_max years = Ret hi
    ∧ gap_years years = Ret missing
    ∧ (∀ y, y ∈ missing ↔ (lo <= y <= hi + 1)%Z ∧ y ∉ years)
    ∧ last missing = Some (hi + 1)%Z
    ∧ StronglySorted Z.lt missing
    ∧ (∀ y, y ∈ missing → y ≠ (hi + 1)%Z → (lo < y < hi)%Z).
Proof.
  intros Hne.
  destruct (gap_years_inv years Hne)
    as (lo & hi & missing & Hlo & Hhi & Hgap & Hm & Hle).
  destruct (py_min_spec years lo Hlo) as (Hlo_in & Hlo_le).
  destruct (py_max_spec years hi Hhi) as (Hhi_in & Hhi_le).
  rewrite Forall_forall in Hlo_le, Hhi_le.
  exists lo, hi, missing.
  split; [exact Hlo|]. split; [exact Hhi|]. split; [exact Hgap|].
  assert (Hspec : ∀ y, y ∈ missing ↔ (lo <= y <= hi + 1)%Z ∧ y ∉ years).
  { intros y. rewrite Hm, elem_of_app, list_elem_of_filter,
      elem_of_py_range, list_elem_of_singleton. split.
    - intros [[Hy Hr]| ->]; [split; [lia|done]|].
      split; [lia|]. intros Hin. specialize (Hhi_le _ Hin). lia.
    - intros [Hr Hy]. destruct (decide (y = (hi + 1)%Z)); [by right|].
      left. split; [done|lia]. }
  split; [exact Hspec|]. split; [rewrite Hm; apply last_snoc|]. split.
  - unfold gap_years in Hgap. rewrite Hlo, Hhi in Hgap.
    injection Hgap as <-. apply filter_sorted, py_range_sorted.
  - intros y Hy Hne'. apply Hspec in Hy as [Hr Hy].
    assert (y ≠ lo) by (intros ->; done).
    assert (y ≠ hi) by (intros ->; done). lia.
Qed.

Lemma gap_years_spec_witness :
  Samples.years_with_gap ≠ []
  ∧ ∃ missing,
      gap_years Samples.years_with_gap = Ret missing
      ∧ last missing = Some 2023%Z
      ∧ StronglySorted Z.lt missing.
Proof.
  split; [done|].
  destruct (gap_years_spec Samples.years_with_gap)
    as (lo & hi & missing & _ & Hhi & Hgap & _ & Hlast & Hsorted & _);
    [done|].
  exists missing. split; [exact Hgap|]. split; [|exact Hsorted].
  rewrite Hlast. vm_compute in Hhi. by injection Hhi as <-.
Defined.

(** ** [get_obfuscated_metrics], block by block *)

Section Obfuscated.

Variable L : NumLib.

Lemma series_entry_unfold name unit_label note
    (data : list (Z * option Q)) (acc : list ObfuscatedMetric) :
  data ≠ [] →
  (lo ← py_min (fst <$> data);
   hi ← py_max (fst <$> data);
   if bool_decide
        (filter (fun y => y ∉ fst <$> data) (py_range lo (hi + 2)) ≠ [])
   then
     result ← impute_missing_years L (fst <$> data) (snd <$> data)
                (filter (fun y => y ∉ fst <$> data) (py_range lo (hi + 2)))
                "auto" 0.95;
     match result with
     | Some result =>
       Ret (acc ++ [{| om_metric := name;
                       om_known_years := fst <$> data;
                       om_known_values := snd <$> data;
                       om_result := result;
                       om_unit := unit_label;
                       om_note := note |}])
     | None => Ret acc
     end
   else Ret acc)
  = (e ← series_entry L name unit_label note data;
     Ret (acc ++ option_list e)).
Proof.
  intros Hne.
  assert (Hy : fst <$> data ≠ []) by (by destruct data).
  destruct (gap_years_inv (fst <$> data) Hy)
    as (lo & hi & missing & Hlo & Hhi & Hgap & Hm & _).
  unfold series_entry. rewrite Hgap.
  unfold gap_years in Hgap. rewrite Hlo, Hhi in *.
  injection Hgap as Hgap. cbn [mbind pyresult_bind].
  rewrite Hgap.
  assert (Hmne : missing ≠ []).
  { rewrite Hm. intros Heq. apply app_eq_nil in Heq as [_ Heq].
    discriminate Heq. }
  rewrite bool_decide_eq_true_2 by done.
  destruct (impute_missing_years L _ _ missing "auto" 0.95) as [[r|]|e];
    cbn [mbind pyresult_bind option_list]; [done| |done].
  by rewrite app_nil_r.
Qed.

Lemma pyresult_bind_congr {A B} (m m' : pyresult A) (k k' : A → pyresult B) :
  m = m' → (∀ a, k a = k' a) → m ≫= k = m' ≫= k'.
Proof. intros -> H. destruct m'; simpl; auto. Qed.

Lemma series_block_unfold name unit_label note
    (data : list (Z * option Q)) (acc : list ObfuscatedMetric) :
  (if bool_decide (data ≠ []) then
     lo ← py_min (fst <$> data);
     hi ← py_max (fst <$> data);
     if bool_decide
          (filter (fun y => y ∉ fst <$> data) (py_range lo (hi + 2)) ≠ [])
     then
       result ← impute_missing_years L (fst <$> data) (snd <$> data)
                  (filter (fun y => y ∉ fst <$> data)
                     (py_range lo (hi + 2)))
                  "auto" 0.95;
       match result with
       | Some result =>
         Ret (acc ++ [{| om_metric := name;
                         om_known_years := fst <$> data;
                         om_known_values := snd <$> data;
                         om_result := result;
                         om_unit := unit_label;
                         om_note := note |}])
       | None => Ret acc
       end
     else Ret acc
   else Ret acc)
  = (e ← series_block L name unit_label note data;
     Ret (acc ++ option_list e)).
Proof.
  unfold series_block. case_bool_decide as Hne.
  - by apply series_entry_unfold.
  - simpl. by rewrite app_nil_r.
Qed.

(** The two blocks run one after the other; each contributes at most
    one entry. *)
Lemma get_obfuscated_metrics_compose deaths_data budget_data :
  get_obfuscated_metrics L deaths_data budget_data
  = (deaths ← series_block L "Deaths in Custody" "deaths" deaths_note
                deaths_data;
     budget ← series_block L "ICE Budget" "$M" budget_note budget_data;
     Ret (option_list deaths ++ option_list budget)).
Proof.
  pose proof (series_block_unfold "Deaths in Custody" "deaths" deaths_note
                deaths_data []) as H1.
  pose proof (series_block_unfold "ICE Budget" "$M" budget_note
                budget_data) as H2.
  unfold get_obfuscated_metrics. cbv zeta.
  etransitivity.
  { apply pyresult_bind_congr; [exact H1|].
    intros acc. apply pyresult_bind_congr; [exact (H2 acc)|].
    intros a. reflexivity. }
  destruct (series_block L _ _ _ deaths_data) as [e1|x]; [|done].
  destruct (series_block L _ _ _ budget_data) as [e2|x]; [|done].
  reflexivity.
Qed.



(** An entry records the table it was computed from and an [auto]
    imputation for the gap years of that table. *)
Lemma series_block_inv name unit_label note
    (data : list (Z * option Q)) e :
  series_block L name unit_label note data = Ret (Some e) →
  ∃ missing,
    gap_years (fst <$> data) = Ret missing
    ∧ impute_missing_years L (fst <$> data) (snd <$> data) missing
        "auto" 0.95 = Ret (Some (om_result e))
    ∧ e = {| om_metric := name;
             om_known_years := fst <$> data;
             om_known_values := snd <$> data;
             om_result := om_result e;
             om_unit := unit_label;
             om_note := note |}.
Proof.
  unfold series_block. case_bool_decide as Hne; [|done].
  unfold series_entry.
  destruct (gap_years (fst <$> data)) as [missing|x]; [|done].
  cbn [mbind pyresult_bind].
  destruct (impute_missing_years L _ _ missing "auto" 0.95)
    as [[r|]|x] eqn:Himp; cbn [mbind pyresult_bind]; [|done|done].
  intros H. injection H as <-. simpl. eauto.
Qed.

Lemma get_obfuscated_metrics_inv deaths_data budget_data result e :
  get_obfuscated_metrics L deaths_data budget_data = Ret result →
  e ∈ result →
  series_block L "Deaths in Custody" "deaths" deaths_note deaths_data
  = Ret (Some e)
  ∨ series_block L "ICE Budget" "$M" budget_note budget_data
    = Ret (Some e).
Proof.
  rewrite get_obfuscated_metrics_compose.
  destruct (series_block L _ _ _ deaths_data) as [e1|x];
    cbn [mbind pyresult_bind]; [|done].
  destruct (series_block L _ _ _ budget_data) as [e2|x];
    cbn [mbind pyresult_bind]; [|done].
  intros H. injection H as <-. rewrite elem_of_app.
  destruct e1 as [e1|], e2 as [e2|]; simpl;
    rewrite ?list_elem_of_singleton, ?elem_of_nil;
    intros [H|H]; subst; auto; done.
Qed.

End Obfuscated.




(** X14.  In every entry [get_obfuscated_metrics] reports, exactly one
    prediction lies beyond the reported years: the last one, for the
    year after the last reported year, with uncertainty factor 1.15.
    All the others fill interior gaps with factor 1, and none is made
    for a year that has a row, even a row without a value. *)
Theorem obfuscated_uncertainty
    L (deaths_data budget_data : list (Z * option Q)) result e :
  get_obfuscated_metrics L deaths_data budget_data = Ret result →
  e ∈ result →
  ∃ hi interior final,
    py_max (om_known_years e) = Ret hi
    ∧ predictions (om_result e) = interior ++ [final]
    ∧ year final = (hi + 1)%Z
    ∧ uncertainty_factor final == 1.15
    ∧ Forall (fun q => uncertainty_factor q == 1
                       ∧ (year q < hi)%Z
                       ∧ year q ∉ om_known_years e)
        interior.
Proof.
  intros Hres He.
  assert (∃ name unit_label note data,
            series_block L name unit_label note data = Ret (Some e))
    as (name & unit_label & note & data & Hblock).
  { destruct (get_obfuscated_metrics_inv L _ _ _ _ Hres He); eauto 10. }
  apply series_block_inv in Hblock as (missing & Hgap & Himp & Heq).
  assert (Hy : fst <$> data ≠ []).
  { intros Hnil. rewrite Hnil in Hgap. done. }
  destruct (gap_years_inv (fst <$> data) Hy)
    as (lo & hi & missing' & Hlo & Hhi & Hgap' & Hm & Hle).
  rewrite Hgap in Hgap'. injection Hgap' as <-.
  destruct (py_max_spec _ _ Hhi) as (_ & Hhi_le).
  destruct (impute_missing_years_inv L _ _ _ _ _ _ Himp)
    as (mk & Hmax & _ & Hpred & _).
  rewrite Hhi in Hmax. injection Hmax as <-.
  rewrite Heq. cbn [om_known_years om_result].
  rewrite Hpred, Hm, fmap_app. simpl.
  eexists hi, _, _. split; [exact Hhi|]. split; [reflexivity|].
  split; [reflexivity|]. split.
  - simpl. unfold uncertainty_factor_of, years_out.
    replace (hi + 1 - hi)%Z with 1%Z by lia. reflexivity.
  - apply Forall_fmap, Forall_forall. intros y Hyin.
    apply list_elem_of_filter in Hyin as [Hnot Hrange].
    apply elem_of_py_range in Hrange. simpl.
    split; [apply uncertainty_factor_of_known; lia|].
    split; [|done].
    assert (y ≠ hi); [|lia].
    intros ->. apply Hnot.
    destruct (py_max_spec _ _ Hhi) as (Hin & _). exact Hin.
Qed.

Lemma obfuscated_uncertainty_witness :
  ∃ result e interior final,
    get_obfuscated_metrics (Reference.lib Reference.SeedIsOptimal)
      Samples.rows [] = Ret result
    ∧ e ∈ result
    ∧ predictions (om_result e) = interior ++ [final]
    ∧ year final = 2024%Z
    ∧ uncertainty_factor final == 1.15.
Proof.
  eexists _, _.
  edestruct (obfuscated_uncertainty (Reference.lib Reference.SeedIsOptimal)
               Samples.rows [])
    as (hi & interior & final & Hhi & Hpred & Hyear & Hfac & _);
    [by vm_compute | left |].
  exists interior, final.
  split; [by vm_compute|]. split; [left|]. split; [exact Hpred|].
  split; [|exact Hfac].
  rewrite Hyear. vm_compute in Hhi. by injection Hhi as <-.
Defined.

(** ** [get_contested_metrics_analysis] and its tables *)

Lemma analysis_engine_lookup name :
  name ∈ analysis_names →
  ∃ metric,
    contested_metrics analysis_engine !! name = Some metric
    ∧ 0 <= std (official metric) ∧ 0 <= std (independent metric)
    ∧ prior_bias metric = "skeptical"
    ∧ get_metric_unit name ≠ ""
    ∧ get_metric_description name ≠ "".
Proof.
  unfold analysis_names. rewrite !elem_of_cons, elem_of_nil.
  intros [->|[->|[->|[->|[->|[->|[]]]]]]];
    (eexists; split; [by vm_compute|]);
    (split; [by vm_compute|]); (split; [by vm_compute|]);
    (split; [reflexivity|]); split; by vm_compute.
Qed.

Lemma analysis_tables_outside name :
  name ∉ analysis_names →
  contested_metrics analysis_engine !! name = None
  ∧ get_metric_unit name = ""
  ∧ get_metric_description name = "".
Proof.
  intros Hout. split; [|split].
  - unfold analysis_names in Hout. rewrite !not_elem_of_cons in Hout.
    destruct Hout as (H1 & H2 & H3 & H4 & H5 & H6 & _).
    unfold analysis_engine, add_contested_metric. cbn [contested_metrics].
    rewrite !lookup_insert_ne by done. apply lookup_empty.
  - unfold get_metric_unit. cbv zeta.
    by rewrite not_elem_of_list_to_map_1.
  - unfold get_metric_description. cbv zeta.
    by rewrite not_elem_of_list_to_map_1.
Qed.

(** The loop over the metrics, for any engine that holds every name
    with non-negative spreads. *)
Lemma analysis_loop L engine names :
  (∀ name, name ∈ names →
     ∃ metric, contested_metrics engine !! name = Some metric
               ∧ 0 <= std (official metric)
               ∧ 0 <= std (independent metric)) →
  ∀ acc rs,
    ∃ results rs',
      for_each_rand (analyse_metric L engine) acc names rs
      = (Ret (acc ++ results), rs')
      ∧ ma_name <$> results = names
      ∧ Forall (fun r =>
                  ∃ metric,
                    contested_metrics engine !! ma_name r = Some metric
                    ∧ length (samples (ma_posterior r)) = Z.to_nat 10000
                    ∧ weights (ma_posterior r)
                      = mixture_weights (prior_bias metric)
                    ∧ posterior_official (ma_posterior r) = official metric
                    ∧ posterior_independent (ma_posterior r)
                      = independent metric
                    ∧ ma_unit r = get_metric_unit (ma_name r)
                    ∧ ma_description r = get_metric_description (ma_name r))
          results.
Proof.
  induction names as [|name names IH]; intros Hall acc rs.
  - exists [], rs. rewrite app_nil_r. by repeat split.
  - destruct (Hall name) as (metric & Hfound & Hso & Hsi); [left|].
    destruct (compute_posterior_returns L engine name metric Hfound
                10000 rs Hso Hsi) as (p & rs1 & Hret & Hlen); [lia|].
    destruct (compute_posterior_inv L engine name metric Hfound
                10000 rs p rs1 Hret)
      as (off & ind & r1 & r2 & p5 & p25 & p50 & p75 & p95
          & _ & _ & _ & _ & Hp).
    set (entry := {| ma_name := name; ma_posterior := p;
                     ma_unit := get_metric_unit name;
                     ma_description := get_metric_description name |}).
    destruct (IH (fun n Hn => Hall n (list_elem_of_further _ _ _ Hn))
                (acc ++ [entry]) rs1)
      as (results & rs' & Hloop & Hnames & Hres).
    exists (entry :: results), rs'. split; [|split].
    + cbn [for_each_rand]. unfold mbind at 1, rand_bind at 1.
      unfold analyse_metric at 1. unfold mbind at 1, rand_bind at 1.
      rewrite Hret. cbv beta match zeta. fold entry.
      unfold mret, rand_ret. rewrite Hloop.
      by rewrite <- app_assoc.
    + rewrite fmap_cons, Hnames. reflexivity.
    + constructor; [|exact Hres].
      exists metric. simpl. rewrite Hp. simpl.
      split; [exact Hfound|]. split; [|by repeat split].
      rewrite Hp in Hlen. exact Hlen.
Qed.

(** X15.  [get_contested_metrics_analysis] never raises and drops no
    metric: it returns one result for each of the six catalogued
    metrics, in the order they were added, each with a posterior of
    10000 samples weighted (0.3, 0.7) and with a unit and a description
    that are not empty. *)
Theorem get_contested_metrics_analysis_complete L rs :
  ∃ results rs',
    get_contested_metrics_analysis L rs = (Ret results, rs')
    ∧ ma_name <$> results = analysis_names
    ∧ Forall (fun r =>
                length (samples (ma_posterior r)) = Z.to_nat 10000
                ∧ weights (ma_posterior r) = (0.3, 0.7)
                ∧ ma_unit r = get_metric_unit (ma_name r)
                ∧ ma_description r = get_metric_description (ma_name r)
                ∧ ma_unit r ≠ "" ∧ ma_description r ≠ "")
        results.
Proof.
  assert (Hall : ∀ name, name ∈ analysis_names →
            ∃ metric, contested_metrics analysis_engine !! name = Some metric
                      ∧ 0 <= std (official metric)
                      ∧ 0 <= std (independent metric)).
  { intros name Hin.
    destruct (analysis_engine_lookup name Hin) as (m & ? & ? & ? & _).
    eauto. }
  destruct (analysis_loop L analysis_engine analysis_names Hall [] rs)
    as (results & rs' & Hloop & Hnames & Hres).
  exists results, rs'. split; [exact Hloop|]. split; [exact Hnames|].
  rewrite Forall_forall in Hres. apply Forall_forall. intros r Hr.
  destruct (Hres r Hr) as (metric & Hfound & Hlen & Hw & _ & _ & Hu & Hd).
  assert (Hin : ma_name r ∈ analysis_names).
  { rewrite <- Hnames. apply list_elem_of_fmap. eauto. }
  destruct (analysis_engine_lookup _ Hin)
    as (m & Hfound' & _ & _ & Hbias & Hunit & Hdesc).
  rewrite Hfound in Hfound'. injection Hfound' as ->.
  split; [exact Hlen|]. split; [by rewrite Hw, Hbias|].
  split; [exact Hu|]. split; [exact Hd|].
  rewrite Hu, Hd. by split.
Qed.

(** X16.  The catalogue, the unit table and the description table have
    the same six keys: a name has a metric in the engine, a unit that is
    not empty and a description that is not empty exactly when it is one
    of the six; for every other name both lookups give the empty
    string. *)
Theorem metric_tables_agree (name : string) :
  (name ∈ analysis_names
   ↔ is_Some (contested_metrics analysis_engine !! name))
  ∧ (name ∈ analysis_names ↔ get_metric_unit name ≠ "")
  ∧ (name ∈ analysis_names ↔ get_metric_description name ≠ "").
Proof.
  destruct (decide (name ∈ analysis_names)) as [Hin|Hout].
  - destruct (analysis_engine_lookup name Hin)
      as (m & Hfound & _ & _ & _ & Hunit & Hdesc).
    rewrite Hfound. repeat split; eauto.
  - destruct (analysis_tables_outside name Hout) as (Hfound & Hunit & Hdesc).
    rewrite Hfound, Hunit, Hdesc.
    repeat split; try done; intros H; try done; by destruct H.
Qed.
